(** * The command-line calculator of [templated_tests]

    A shallow embedding of the calculator demo: the [calculate] contract, its
    C interface (status out-parameter, exercised by [test_calc.c]), its C++
    interface (exceptions, exercised by [test_calculator.cpp]) and the C++
    command-line front end [main.cpp].

    Numbers are IEEE 754 binary64 values with the operations of [SpecFloat]
    at precision 53 and maximal exponent 1024; a NaN carries its sign and
    payload, as the x86-64 processor and the C library have them.
    [main] is a computation in a monad of traces and exceptions: it records
    what is written to [std::cout] and [std::cerr] and which calls are made,
    and ends by returning an exit status or by letting an exception escape;
    the process around it turns an escaped exception into the report and the
    abort of [std::terminate]. The library functions [main] uses,
    [std::stod] and the output of a [double], are modelled on the same
    numbers as glibc and libstdc++ have them on x86-64, so that an
    invocation can be run. *)

From Stdlib Require Import ZArith Bool Ascii String List Lia.
From Stdlib Require Import SpecFloat DecimalString.
From stdpp Require Import base option gmap strings.

Local Open Scope Z_scope.

(** ** binary64 *)

Definition prec : Z := 53.
Definition emax : Z := 1024.

(** The C and C++ type [double]: a zero, an infinity, a finite number
    [m * 2 ^ e], or a quiet NaN with the 51 bits below its quiet bit as
    [payload]; each with its sign bit [s]. A signalling NaN is not
    represented: neither [strtod] nor an arithmetic operation gives one. *)
Inductive double : Set :=
| F754_zero (s : bool)
| F754_infinity (s : bool)
| F754_nan (s : bool) (payload : Z)
| F754_finite (s : bool) (m : positive) (e : Z).

Declare Scope double_scope.
Delimit Scope double_scope with double.
Bind Scope double_scope with double.

(** The number a double stands for; [spec_float] has one NaN. *)
Definition SF (x : double) : spec_float :=
  match x with
  | F754_zero s => S754_zero s
  | F754_infinity s => S754_infinity s
  | F754_nan _ _ => S754_nan
  | F754_finite s m e => S754_finite s m e
  end.

(** The double for a result of [SpecFloat], [nan] being the NaN to take
    when the result is one. *)
Definition FF (nan : double) (x : spec_float) : double :=
  match x with
  | S754_zero s => F754_zero s
  | S754_infinity s => F754_infinity s
  | S754_nan => nan
  | S754_finite s m e => F754_finite s m e
  end.

(** The NaN of an invalid operation ([inf - inf], [0 / 0]) on x86-64: the
    sign bit is set and the payload is zero. *)
Definition default_nan : double := F754_nan true 0.

(** The NaN an operation on [a] and [b] gives, on x86-64 (SSE2): a NaN
    operand as it is, sign and payload, the first one when both are; the
    default NaN when neither is. (For [+] and [*] with two NaN operands the
    compiler chooses which of them the instruction sees first.) *)
Definition propagate (a b : double) : double :=
  match a, b with
  | F754_nan _ _, _ => a
  | _, F754_nan _ _ => b
  | _, _ => default_nan
  end.

Definition fadd (a b : double) : double :=
  FF (propagate a b) (SFadd prec emax (SF a) (SF b)).
Definition fsub (a b : double) : double :=
  FF (propagate a b) (SFsub prec emax (SF a) (SF b)).
Definition fmul (a b : double) : double :=
  FF (propagate a b) (SFmul prec emax (SF a) (SF b)).
Definition fdiv (a b : double) : double :=
  FF (propagate a b) (SFdiv prec emax (SF a) (SF b)).
(** [a == b] on doubles: both zeros are equal, a NaN equals nothing. *)
Definition feqb (a b : double) : bool := SFeqb (SF a) (SF b).
Definition fleb (a b : double) : bool := SFleb (SF a) (SF b).
(** [fabs] clears the sign bit, of a NaN too. *)
Definition fabs (a : double) : double :=
  match a with
  | F754_zero _ => F754_zero false
  | F754_infinity _ => F754_infinity false
  | F754_nan _ payload => F754_nan false payload
  | F754_finite _ m e => F754_finite false m e
  end.

Infix "+" := fadd : double_scope.
Infix "-" := fsub : double_scope.
Infix "*" := fmul : double_scope.
Infix "/" := fdiv : double_scope.
Infix "==" := feqb (at level 70, no associativity) : double_scope.

(** Conversion of an integer constant, as in [calculate(5, 3, ...)]. *)
Definition of_Z (z : Z) : double :=
  FF default_nan (binary_normalize prec emax z 0 false).

Definition is_finite (a : double) : bool :=
  match a with
  | F754_zero _ | F754_finite _ _ _ => true
  | F754_infinity _ | F754_nan _ _ => false
  end.

Definition is_zero (a : double) : bool :=
  match a with
  | F754_zero _ => true
  | _ => false
  end.

(** ** Correctly rounded conversion of a ratio of integers

    [round_ratio s num den] is the binary64 value nearest to [num / den]
    (ties to even) with sign [s]; decimal and hexadecimal literals are
    converted through it. *)

Definition round_ratio (s : bool) (num den : Z) : double :=
  match num with
  | Z0 => F754_zero s
  | _ =>
      let '(q, e, l) := SFdiv_core_binary prec emax num 0 den 0 in
      FF default_nan (binary_round_aux prec emax s q e l)
  end.

(** The value [m * base ^ e] as a ratio of two non-negative integers. *)
Definition scaled (base m e : Z) : Z * Z :=
  if 0 <=? e then (m * base ^ e, 1) else (m, base ^ (- e)).

(** A decimal constant [m * 10 ^ e], such as [0.0001]. *)
Definition decimal (m e : Z) : double :=
  let '(num, den) := scaled 10 (Z.abs m) e in round_ratio (m <? 0) num den.

(** Does the finite double [x] denote exactly [num / den] in magnitude? *)
Definition exactly (x : double) (num den : Z) : bool :=
  match x with
  | F754_zero _ => num =? 0
  | F754_finite _ mx ex =>
      let '(n, d) := scaled 2 (Zpos mx) ex in n * den =? num * d
  | _ => false
  end.

(** The bits of [x] other than its sign, read as an integer (the exponent
    field above the 52 fraction bits). *)
Definition magnitude_bits (x : double) : Z :=
  match x with
  | F754_zero _ => 0
  | F754_finite _ m e => (e + 1074) * 2 ^ 52 + Zpos m
  | F754_infinity _ => 2047 * 2 ^ 52
  | F754_nan _ payload => 2047 * 2 ^ 52 + 2 ^ 51 + payload
  end.

Definition sign_bit (x : double) : bool :=
  match x with
  | F754_zero s | F754_infinity s | F754_nan s _ | F754_finite s _ _ => s
  end.

(** The position of [x] on the line of doubles, as GoogleTest's
    [SignAndMagnitudeToBiased] computes it from the 64 bits. *)
Definition biased (x : double) : Z :=
  if sign_bit x then 2 ^ 63 - magnitude_bits x else 2 ^ 63 + magnitude_bits x.

(** GoogleTest's [FloatingPoint<double>::AlmostEquals]: neither is a NaN
    and they are at most 4 units in the last place apart. *)
Definition AlmostEquals (a b : double) : bool :=
  match a, b with
  | F754_nan _ _, _ | _, F754_nan _ _ => false
  | _, _ => Z.abs (biased a - biased b) <=? 4
  end.

(** ** The calculator contract *)

Module Spec.

(** Modelled from the spec: the data model of §3 and the errors of §7;
    [calc.c] and [calculator.cpp], which would define them, are missing. *)
Inductive Operation : Set := Add | Subtract | Multiply | Divide.

Inductive CalcError : Set := DivisionByZero | UnknownOperation.

Inductive Result : Set :=
| Ok (value : double)
| Err (kind : CalcError).

(** Modelled from the spec: the token that selects an [Operation] (§3);
    the sources of the calculator itself ([calc.c], [calculator.cpp]) are
    not available, only its tests and its caller. *)
Definition select (token : string) : option Operation :=
  if String.eqb token "--add" then Some Add
  else if String.eqb token "--subtract" then Some Subtract
  else if String.eqb token "--multiply" then Some Multiply
  else if String.eqb token "--divide" then Some Divide
  else None.

(** Modelled from the spec: the arithmetic dispatch of §4.1, missing with
    [calc.c] and [calculator.cpp]. *)
Definition evaluate (op : Operation) (a b : double) : Result :=
  match op with
  | Add => Ok (a + b)
  | Subtract => Ok (a - b)
  | Multiply => Ok (a * b)
  | Divide => if (b == of_Z 0)%double then Err DivisionByZero else Ok (a / b)
  end.

(** Modelled from the spec: [calculate(operand1, operand2, operation)] of
    §2 and §4.1, missing with [calc.c] and [calculator.cpp]. *)
Definition calculate (a b : double) (operation : string) : Result :=
  match select operation with
  | Some op => evaluate op a b
  | None => Err UnknownOperation
  end.

Definition tokens : list string :=
  ["--add"; "--subtract"; "--multiply"; "--divide"]%string.

End Spec.

(** ** The C interface ([calc.h]), as [test_calc.c] calls it

    [double calculate(double a, double b, const char *operation, int *status)]:
    the outcome is reported through the [int] that [status] points to. *)

Module Calc.

(** Addresses of [int] objects and the store that holds them. *)
Abbreviation address := positive.
Abbreviation memory := (gmap positive Z).

Section Interface.

(** What the function hands back when it fails is left open by the contract
    ("no numeric result is trusted"); it may depend on the arguments. *)
Variable untrusted : double -> double -> string -> double.

(** The status written for an unknown operation is fixed neither by the
    contract nor by [test_calc.c]. *)
Variable unknown_status : Z.

(** The status convention of [test_calc.c]: 0 after a successful call, 1
    after a division by zero. *)
Definition error_status (k : Spec.CalcError) : Z :=
  match k with
  | Spec.DivisionByZero => 1
  | Spec.UnknownOperation => unknown_status
  end.

(** Modelled from the spec: [calc.c] is missing; the contract of §4.1 with
    the status convention of [test_calc.c]. *)
Definition calculate (a b : double) (operation : string)
    (status : address) (m : memory) : double * memory :=
  match Spec.calculate a b operation with
  | Spec.Ok v => (v, <[status := 0]> m)
  | Spec.Err k => (untrusted a b operation, <[status := error_status k]> m)
  end.

(** [CU_ASSERT_DOUBLE_EQUAL(actual, expected, granularity)] of CUnit:
    [fabs(actual - expected) <= fabs(granularity)]. *)
Definition CU_ASSERT_DOUBLE_EQUAL (actual expected granularity : double) : bool :=
  fleb (fabs (actual - expected)%double) (fabs granularity).

(** [test_add]: [status] is the address of the local [int status], [m] the
    store when the test starts. *)
Definition test_add (status : address) (m : memory) : bool :=
  let '(result, m') := calculate (of_Z 5) (of_Z 3) "--add" status m in
  CU_ASSERT_DOUBLE_EQUAL result (of_Z 8) (decimal 1 (-4))
  && bool_decide (m' !! status = Some 0).

(** [test_divide_zero]. *)
Definition test_divide_zero (status : address) (m : memory) : bool :=
  let '(_, m') := calculate (of_Z 5) (of_Z 0) "--divide" status m in
  bool_decide (m' !! status = Some 1).

End Interface.

End Calc.

(** ** C++ exceptions *)

Inductive exception_class : Set :=
| std_exception
| std_logic_error
| std_invalid_argument
| std_out_of_range
| std_runtime_error.

#[export] Instance exception_class_eq_dec : EqDecision exception_class.
Proof. solve_decision. Defined.

(** The direct base class, [None] for [std::exception] itself. *)
Definition base_class (c : exception_class) : option exception_class :=
  match c with
  | std_exception => None
  | std_logic_error => Some std_exception
  | std_invalid_argument => Some std_logic_error
  | std_out_of_range => Some std_logic_error
  | std_runtime_error => Some std_exception
  end.

(** Is [b] the class [c] or one of its bases, at most [depth] steps up? *)
Fixpoint reaches_base (depth : nat) (c b : exception_class) : bool :=
  bool_decide (c = b)
  || match depth, base_class c with
     | S depth', Some c' => reaches_base depth' c' b
     | _, _ => false
     end.

(** [derives_from c b]: an object of class [c] is caught by a handler for
    [b]. The hierarchy is two classes deep. *)
Definition derives_from (c b : exception_class) : bool := reaches_base 2 c b.

(** An exception object of the standard hierarchy, with its [what()]. *)
Record exception : Set := Exception { class_of : exception_class; what : string }.

(** What a [throw] can raise: an object derived from [std::exception], or
    an object of any other type, given by the name of that type. *)
Inductive thrown : Set :=
| Std (e : exception)
| Foreign (type_name : string).

(** The name of a class, as the runtime prints it. *)
Definition class_name (c : exception_class) : string :=
  match c with
  | std_exception => "std::exception"
  | std_logic_error => "std::logic_error"
  | std_invalid_argument => "std::invalid_argument"
  | std_out_of_range => "std::out_of_range"
  | std_runtime_error => "std::runtime_error"
  end.

(** How the evaluation of an expression ends. *)
Inductive completion (A : Type) : Type :=
| Returns (a : A)
| Throws (e : thrown).
Arguments Returns {A} a.
Arguments Throws {A} e.

(** ** The C++ interface ([calculator.hpp]), as [test_calculator.cpp] and
    [main.cpp] call it *)

Module Calculator.

(** [EXPECT_THROW(statement, expected)] of GoogleTest. *)
Definition EXPECT_THROW {A} (statement : completion A) (expected : exception_class) : bool :=
  match statement with
  | Throws (Std e) => derives_from (class_of e) expected
  | _ => false
  end.

(** [EXPECT_DOUBLE_EQ(val1, val2)] of GoogleTest; an exception that leaves
    the test body fails the test. *)
Definition EXPECT_DOUBLE_EQ (val1 : completion double) (val2 : double) : bool :=
  match val1 with
  | Returns v => AlmostEquals v val2
  | Throws _ => false
  end.

Section Interface.

(** The message of each error and the class thrown for an unknown operation
    are not fixed by the contract. *)
Variable message : Spec.CalcError -> string.
Variable unknown_class : exception_class.

Definition raise (k : Spec.CalcError) : exception :=
  match k with
  | Spec.DivisionByZero => Exception std_invalid_argument (message k)
  | Spec.UnknownOperation => Exception unknown_class (message k)
  end.

(** Modelled from the spec: [calculator.cpp] is missing; the contract of
    §4.1, an error being an exception derived from [std::exception]
    ([std::invalid_argument] for a division by zero, as
    [test_calculator.cpp] expects). *)
Definition calculate (a b : double) (operation : string) : completion double :=
  match Spec.calculate a b operation with
  | Spec.Ok v => Returns v
  | Spec.Err k => Throws (Std (raise k))
  end.

(** [TEST(CalculatorTest, HandlesAddition)]. *)
Definition HandlesAddition : bool :=
  EXPECT_DOUBLE_EQ (calculate (of_Z 1) (of_Z 1) "--add") (of_Z 2).

(** [TEST(CalculatorTest, HandlesDivision)]. *)
Definition HandlesDivision : bool :=
  EXPECT_THROW (calculate (of_Z 1) (of_Z 0) "--divide") std_invalid_argument.

End Interface.

End Calculator.

(** ** [std::stod]

    As the C++ standard defines it (string.conversions): [std::stod(str)]
    calls [strtod] on the characters of [str]; it throws
    [std::invalid_argument] when no conversion could be performed and
    [std::out_of_range] when [strtod] reports [ERANGE]; the characters after
    the converted prefix are ignored (no [idx] is passed by [main]).
    [strtod] is the one of the C standard in the C locale: white space, an
    optional sign, then a decimal or hexadecimal floating constant,
    [inf], [infinity] or [nan], rounded to nearest. The sign applies to a
    NaN as well, and [nan] may be followed by a payload in parentheses.
    Where the C standard leaves the choice to the implementation (whether an
    underflow reports [ERANGE], what the payload means), glibc is followed.
    The [what()] of both exceptions is the one of libstdc++, ["stod"]. *)

Definition code (c : ascii) : Z := Z.of_N (N_of_ascii c).

Definition isspace (c : ascii) : bool :=
  (code c =? 32) || ((9 <=? code c) && (code c <=? 13)).

Definition isdigit (c : ascii) : bool := (48 <=? code c) && (code c <=? 57).

Definition tolower (c : ascii) : ascii :=
  if (65 <=? code c) && (code c <=? 90) then ascii_of_N (N_of_ascii c + 32) else c.

Definition isalnum_ (c : ascii) : bool :=
  isdigit c || ((97 <=? code (tolower c)) && (code (tolower c) <=? 122)) || (code c =? 95).

(** The value of a hexadecimal digit, if [c] is one. *)
Definition xdigit (c : ascii) : option Z :=
  if isdigit c then Some (code c - 48)
  else if (97 <=? code (tolower c)) && (code (tolower c) <=? 102)
       then Some (code (tolower c) - 87)
       else None.

Fixpoint skip_spaces (s : string) : string :=
  match s with
  | String c s' => if isspace c then skip_spaces s' else s
  | EmptyString => s
  end.

(** Reads the longest run of digits in [base] (10 or 16) at the head of
    [s], continuing the number [acc]: the number read, how many digits it
    took, and what follows. *)
Fixpoint digits (base : Z) (s : string) (acc : Z) (n : Z) : Z * Z * string :=
  match s with
  | String c s' =>
      match (if base =? 16 then xdigit c else if isdigit c then xdigit c else None) with
      | Some d => digits base s' (base * acc + d) (n + 1)
      | None => (acc, n, s)
      end
  | EmptyString => (acc, n, s)
  end.

(** An optional sign: is it negative, and what follows. *)
Definition sign (s : string) : bool * string :=
  match s with
  | String "-" s' => (true, s')
  | String "+" s' => (false, s')
  | _ => (false, s)
  end.

(** Digits with an optional radix point: the digits as one number, how
    many of them are before and after the point, and what follows. *)
Definition mantissa (base : Z) (s : string) : Z * Z * Z * string :=
  let '(i, ni, r) := digits base s 0 0 in
  match r with
  | String "." r' => let '(m, nf, r'') := digits base r' i 0 in (m, ni, nf, r'')
  | _ => (i, ni, 0, r)
  end.

(** An optional exponent part introduced by [mark] ([e] or [p], either
    case): its value (0 when absent or malformed) and what follows. *)
Definition exponent (mark : ascii) (s : string) : Z * string :=
  match s with
  | String c s' =>
      if Ascii.eqb (tolower c) mark then
        let '(neg, r) := sign s' in
        let '(e, n, r') := digits 10 r 0 0 in
        if n =? 0 then (0, s) else (if neg then - e else e, r')
      else (0, s)
  | EmptyString => (0, s)
  end.

(** Strips the prefix [p] (given in lower case) from [s], ignoring case. *)
Fixpoint strip_nocase (p s : string) : option string :=
  match p, s with
  | EmptyString, _ => Some s
  | String a p', String c s' => if Ascii.eqb a (tolower c) then strip_nocase p' s' else None
  | String _ _, EmptyString => None
  end.

(** The longest run of digits, letters and underscores at the head of [s],
    and what follows it. *)
Fixpoint n_char_sequence (s : string) : string * string :=
  match s with
  | String c s' =>
      if isalnum_ c then let '(q, r) := n_char_sequence s' in (String c q, r)
      else ("", s)
  | EmptyString => ("", s)
  end.

(** Reads the longest run of digits of [base] at the head of [s], continuing
    the number [acc]: the number read and what follows. *)
Fixpoint number_in (base : Z) (s : string) (acc : Z) : Z * string :=
  match s with
  | String c s' =>
      match xdigit c with
      | Some d => if d <? base then number_in base s' (base * acc + d) else (acc, s)
      | None => (acc, s)
      end
  | EmptyString => (acc, s)
  end.

Definition ULLONG_MAX : Z := 2 ^ 64 - 1.

(** [strtoull(s, &end, 0)] on a string without white space or sign: the
    base is 16 after [0x] and a hexadecimal digit, 8 after another [0], and
    10 otherwise. The value ([ULLONG_MAX] when the number is too large),
    whether [ERANGE] is reported, and what follows the number. *)
Definition strtoull (s : string) : Z * bool * string :=
  let '(base, s') :=
    match s with
    | String "0" (String x (String c r)) =>
        if Ascii.eqb (tolower x) "x" && bool_decide (is_Some (xdigit c))
        then (16, String c r) else (8, s)
    | String "0" _ => (8, s)
    | _ => (10, s)
    end in
  let '(v, r) := number_in base s' 0 in
  (Z.min v ULLONG_MAX, ULLONG_MAX <? v, r).

(** A parsed literal: its value, whether [ERANGE] is reported, and the rest
    of the string. *)
Definition parsed : Type := double * bool * string.

(** Is [num / den] tiny? The C library of x86-64 detects tininess after
    rounding: the value is tiny when, rounded to 53 bits with no bound on
    the exponent, it is below [DBL_MIN = 2 ^ -1022]; that is, when it is
    below [2 ^ -1022 - 2 ^ -1076], half-way between [DBL_MIN] and the 53-bit
    number before it. *)
Definition tiny (num den : Z) : bool := num * 2 ^ 1076 <? (2 ^ 54 - 1) * den.

(** A finite literal [m * base ^ e] of sign [neg]. [ERANGE] is reported when
    the value overflows, and when it is tiny and the result is not the exact
    value of the literal (the behaviour of glibc; whether an underflow
    reports [ERANGE] is implementation-defined). *)
Definition finite_literal (neg : bool) (base m e : Z) (rest : string) : parsed :=
  let '(num, den) := scaled base m e in
  let x := round_ratio neg num den in
  let erange := negb (is_finite x)
                || (tiny num den && negb (exactly x num den)) in
  (x, erange, rest).

Definition hexadecimal (neg : bool) (s : string) : option parsed :=
  match strip_nocase "0x" s with
  | Some r =>
      let '(m, ni, nf, r') := mantissa 16 r in
      if ni + nf =? 0 then None
      else let '(e, r'') := exponent "p" r' in
           Some (finite_literal neg 2 m (e - 4 * nf) r'')
  | None => None
  end.

Definition decimal_literal (neg : bool) (s : string) : option parsed :=
  let '(m, ni, nf, r) := mantissa 10 s in
  if ni + nf =? 0 then None
  else let '(e, r') := exponent "e" r in
       Some (finite_literal neg 10 m (e - nf) r').

(** What follows [nan]: with [(n-char-sequence)], the sequence is read by
    [strtoull] and, when that takes all of it, the number becomes the
    payload (its low 51 bits); an [ERANGE] of [strtoull] is left standing
    (glibc). Without a well-formed sequence and its closing parenthesis the
    literal ends after [nan]. *)
Definition nan_literal (neg : bool) (s : string) : parsed :=
  match s with
  | String "(" s' =>
      match n_char_sequence s' with
      | (q, String ")" r) =>
          let '(v, erange, unread) := strtoull q in
          (F754_nan neg (if String.eqb unread "" then v mod 2 ^ 51 else 0), erange, r)
      | _ => (F754_nan neg 0, false, s)
      end
  | _ => (F754_nan neg 0, false, s)
  end.

Definition special (neg : bool) (s : string) : option parsed :=
  match strip_nocase "infinity" s with
  | Some r => Some (F754_infinity neg, false, r)
  | None =>
      match strip_nocase "inf" s with
      | Some r => Some (F754_infinity neg, false, r)
      | None =>
          match strip_nocase "nan" s with
          | Some r => Some (nan_literal neg r)
          | None => None
          end
      end
  end.

(** [strtod]: [None] when no conversion can be performed. *)
Definition strtod (s : string) : option parsed :=
  let '(neg, r) := sign (skip_spaces s) in
  match hexadecimal neg r with
  | Some p => Some p
  | None =>
      match decimal_literal neg r with
      | Some p => Some p
      | None => special neg r
      end
  end.

Definition stod (str : string) : completion double :=
  match strtod str with
  | None => Throws (Std (Exception std_invalid_argument "stod"))
  | Some (x, erange, _) =>
      if erange then Throws (Std (Exception std_out_of_range "stod")) else Returns x
  end.

(** A decimal numeric literal in the sense of the command-line surface:
    the whole string is an optionally signed decimal number, with an
    optional fraction and exponent, and nothing else. *)
Definition is_decimal_literal (s : string) : bool :=
  match decimal_literal false (snd (sign s)) with
  | Some (_, _, rest) => String.eqb rest ""
  | None => false
  end.

(** Strings of decimal digits, the number they denote (continuing [acc]),
    and the strings that cannot continue a number: empty, or starting with
    a character that is neither a digit, a point, [e] nor [x]. *)
Fixpoint all_digits (s : string) : bool :=
  match s with
  | EmptyString => true
  | String c s' => isdigit c && all_digits s'
  end.

(** Strings of white space. *)
Fixpoint all_spaces (s : string) : bool :=
  match s with
  | EmptyString => true
  | String c s' => isspace c && all_spaces s'
  end.

Fixpoint number (d : string) (acc : Z) : Z :=
  match d with
  | EmptyString => acc
  | String c d' => number d' (10 * acc + (code c - 48))
  end.

Definition continues (c : ascii) : bool :=
  isdigit c || Ascii.eqb c "." || Ascii.eqb (tolower c) "e" || Ascii.eqb (tolower c) "x".

Definition ends_number (t : string) : bool :=
  match t with
  | EmptyString => true
  | String c _ => negb (continues c)
  end.

(** ** [std::ostream << double]

    As the C++ standard defines it (facet.num.put.virtuals): a stream in
    its initial state formats a [double] as [printf] does with [%g] and
    precision 6: six significant digits (round to nearest, ties to even),
    fixed notation when the decimal exponent [X] satisfies [-4 <= X < 6] and
    scientific notation otherwise, trailing zeros removed. *)

Definition digits_of (z : Z) : string := NilZero.string_of_uint (N.to_uint (Z.to_N z)).

Fixpoint zeros (n : nat) : string :=
  match n with
  | O => ""
  | S n' => String "0" (zeros n')
  end.

(** [z] written with at least [width] digits. *)
Definition padded (width : Z) (z : Z) : string :=
  let d := digits_of z in
  zeros (Z.to_nat width - String.length d) +:+ d.

(** Is [10 ^ x <= num / den]? *)
Definition reaches (num den x : Z) : bool :=
  let '(n, d) := scaled 10 1 x in n * den <=? num * d.

Fixpoint climb (fuel : nat) (num den x : Z) : Z :=
  match fuel with
  | O => x
  | S fuel' => if reaches num den (x + 1) then climb fuel' num den (x + 1) else x
  end.

(** The decimal exponent of [num / den]: the [x] with
    [10 ^ x <= num / den < 10 ^ (x + 1)], found from an estimate by the
    binary logarithms that is at most three below it. *)
Definition floor_log10 (num den : Z) : Z :=
  climb 4 num den ((Z.log2 num - Z.log2 den - 1) * 30103 / 100000 - 1).

(** [num / den] rounded to an integer, ties to even. *)
Definition round_half_even (num den : Z) : Z :=
  let q := num / den in
  let r := num mod den in
  match 2 * r ?= den with
  | Lt => q
  | Eq => if Z.even q then q else q + 1
  | Gt => q + 1
  end.

(** The six significant digits of [num / den] as an integer in
    [[10^5, 10^6)], and the decimal exponent after rounding. *)
Definition significant (num den : Z) : Z * Z :=
  let x := floor_log10 num den in
  let '(n, d) := scaled 10 1 (5 - x) in
  let s := round_half_even (num * n) (den * d) in
  if 1000000 <=? s then (s / 10, x + 1) else (s, x).

(** Removes the zeros that end [z], at most [n] of them: what is left, and
    how many were removed. *)
Fixpoint strip_zeros (n : nat) (z : Z) : Z * Z :=
  match n with
  | O => (z, 0)
  | S n' =>
      if z mod 10 =? 0
      then let '(z', k) := strip_zeros n' (z / 10) in (z', k + 1)
      else (z, 0)
  end.

(** [s], an integer standing for [s / 10 ^ places], in fixed notation. *)
Definition fixed (s places : Z) : string :=
  let '(s', k) := strip_zeros (Z.to_nat places) s in
  let places' := places - k in
  if places' =? 0 then digits_of s'
  else digits_of (s' / 10 ^ places') +:+ "." +:+ padded places' (s' mod 10 ^ places').

Definition scientific (s x : Z) : string :=
  fixed s 5 +:+ "e" +:+ (if x <? 0 then "-" else "+") +:+ padded 2 (Z.abs x).

Definition put_magnitude (num den : Z) : string :=
  let '(s, x) := significant num den in
  if (-4 <=? x) && (x <? 6) then fixed s (5 - x) else scientific s x.

(** A NaN is written [nan], or [-nan] when its sign bit is set, whatever
    its payload (glibc). *)
Definition put_double (x : double) : string :=
  match x with
  | F754_zero s => if s then "-0" else "0"
  | F754_infinity s => if s then "-inf" else "inf"
  | F754_nan s _ => if s then "-nan" else "nan"
  | F754_finite s m e =>
      let '(num, den) := scaled 2 (Zpos m) e in
      (if s then "-" else "") +:+ put_magnitude num den
  end.

(** ** The command-line front end ([main.cpp]) *)

Module Main.

Inductive stream : Set := cout | cerr.

#[export] Instance stream_eq_dec : EqDecision stream.
Proof. solve_decision. Defined.

(** What an execution of [main] does, in order: text written to a stream,
    and the calls into the library and into the calculator. *)
Inductive event : Set :=
| Write (s : stream) (text : string)
| Stod (str : string)
| Calculate (a b : double) (operation : string).

(** A computation: the events it performs and how it ends. *)
Definition run (A : Type) : Type := (list event * completion A)%type.

#[export] Instance run_ret : MRet run := λ A a, ([], Returns a).

#[export] Instance run_bind : MBind run := λ A B k m,
  match m with
  | (t, Returns a) => let '(t', r) := k a in (t ++ t', r)
  | (t, Throws e) => (t, Throws e)
  end.

(** [try { body } catch (const std::exception& e) { handler }]: an object
    of another type is not caught. *)
Definition try_catch {A} (body : run A) (handler : exception → run A) : run A :=
  match body with
  | (t, Throws (Std e)) => let '(t', r) := handler e in (t ++ t', r)
  | _ => body
  end.

Definition put (s : stream) (text : string) : run unit := ([Write s text], Returns tt).

Definition newline : string := String (ascii_of_nat 10) "".

(** [s << std::endl]. *)
Definition endl (s : stream) : run unit := put s newline.

(** [argv[i]]; [main] reads it only after checking [argc]. *)
Definition arg (argv : list string) (i : nat) : string := nth i argv "".

Definition EXIT_SUCCESS : Z := 0.
Definition EXIT_FAILURE : Z := 1.

Definition usage : string :=
  "Usage: ./calculator <operation> <operand1> <operand2>" +:+ newline.

Definition call_stod (str : string) : run double := ([Stod str], stod str).

Section Program.

(** [calculate] of [calculator.hpp]. Its definition ([calculator.cpp]) is
    not available, so [main] is taken over any function of that signature;
    [Calculator.calculate] is the one of the contract. *)
Variable calculate : double → double → string → completion double.

Definition call_calculate (a b : double) (operation : string) : run double :=
  ([Calculate a b operation], calculate a b operation).

(** [int main(int argc, char* argv[])], [argc] being the length of [argv].
    The [try] block yields [Some status] when its handler returns from
    [main], and [None] when control reaches the statement after it. *)
Definition main (argv : list string) : run Z :=
  let argc := Z.of_nat (length argv) in
  if negb (argc =? 4) then
    put cerr usage;;
    mret EXIT_FAILURE
  else
    op1 ← call_stod (arg argv 2);
    op2 ← call_stod (arg argv 3);
    let operation := arg argv 1 in
    returned ← try_catch
      (result ← call_calculate op1 op2 operation;
       put cout "Result: ";; put cout (put_double result);; endl cout;;
       mret None)
      (λ e, put cerr (what e);; endl cerr;; mret (Some EXIT_FAILURE));
    match returned with
    | Some status => mret status
    | None => mret EXIT_SUCCESS
    end.

End Program.

(** How [main] ends: it returns an exit status, or an exception leaves it. *)
Inductive outcome : Set :=
| Exit (status : Z)
| Terminate (e : thrown).

Definition outcome_of (r : run Z) : outcome :=
  match snd r with
  | Returns status => Exit status
  | Throws e => Terminate e
  end.

Definition trace_of (r : run Z) : list event := fst r.

(** The text written to a stream. *)
Fixpoint written (s : stream) (t : list event) : string :=
  match t with
  | Write s' text :: t' =>
      (if bool_decide (s = s') then text else "") +:+ written s t'
  | _ :: t' => written s t'
  | [] => ""
  end.

Definition is_call (ev : event) : bool :=
  match ev with
  | Write _ _ => false
  | Stod _ | Calculate _ _ _ => true
  end.

(** *** The process

    What the caller of the program sees of an execution: the text on
    standard output and on standard error, and how the process ended. When
    [main] returns, the process exits with the status returned. When an
    exception leaves [main], the runtime calls [std::terminate]
    (except.terminate); its default handler in libstdc++ reports the
    exception on standard error and calls [std::abort], which ends the
    process by the signal [SIGABRT]. *)

Inductive termination : Set :=
| Exited (status : Z)
| Killed (signal : Z).

Definition SIGABRT : Z := 6.

Record process : Set := Process { stdout : string; stderr : string; ended : termination }.

(** The report of the default terminate handler of libstdc++. *)
Definition terminate_report (e : thrown) : string :=
  match e with
  | Std e =>
      "terminate called after throwing an instance of '" +:+ class_name (class_of e)
      +:+ "'" +:+ newline +:+ "  what():  " +:+ what e +:+ newline
  | Foreign type_name =>
      "terminate called after throwing an instance of '" +:+ type_name
      +:+ "'" +:+ newline
  end.

(** The process of an execution of [main]. A status returned by [main] is
    passed to [exit]; its low eight bits reach the caller. Standard error is
    not buffered, so the report follows what [main] wrote there. [main]
    writes to [std::cout] only after the last call that can throw, so no
    text is lost in a buffer when the process is aborted. *)
Definition execute (r : run Z) : process :=
  match snd r with
  | Returns status =>
      Process (written cout (fst r)) (written cerr (fst r)) (Exited (status mod 256))
  | Throws e =>
      Process (written cout (fst r)) (written cerr (fst r) +:+ terminate_report e)
        (Killed SIGABRT)
  end.

(** The exit status of the process as a shell gives it ([$?]): 128 plus the
    number of the signal for a process that a signal ended. *)
Definition shell_status (p : process) : Z :=
  match ended p with
  | Exited status => status
  | Killed signal => 128 + signal
  end.

End Main.

(** ** The CUnit runner of [test_calc.c]

    [main] of [test_calc.c] drives the CUnit framework. The framework is
    taken as it is used: a registry that each call reads and changes, with
    whatever results it gives. *)

Module TestCalc.

(** The test functions handed to [CU_add_test]. *)
Inductive test_function : Set := test_add | test_divide_zero.

(** [int init_suite(void)] and [int clean_suite(void)]. *)
Definition init_suite (_ : unit) : Z := 0.
Definition clean_suite (_ : unit) : Z := 0.

Inductive CU_BasicRunMode : Set := CU_BRM_NORMAL | CU_BRM_SILENT | CU_BRM_VERBOSE.

(** The calls [main] makes into the framework. *)
Inductive call : Set :=
| initialize_registry
| get_error
| add_suite (name : string)
| add_test (name : string) (test : test_function)
| basic_set_mode (mode : CU_BasicRunMode)
| basic_run_tests
| cleanup_registry.

Section Runner.

(** The state of the framework, its handles ([NULL] is [None]) and its
    functions, from [CUnit/Basic.h]. *)
Variable registry : Type.
Variables CU_pSuite CU_pTest : Type.
Variable CUE_SUCCESS : Z.
Variable CU_initialize_registry : registry → Z * registry.
Variable CU_get_error : registry → Z.
Variable CU_add_suite :
  string → (unit → Z) → (unit → Z) → registry → option CU_pSuite * registry.
Variable CU_add_test :
  CU_pSuite → string → test_function → registry → option CU_pTest * registry.
Variable CU_basic_set_mode : CU_BasicRunMode → registry → registry.
Variable CU_basic_run_tests : registry → Z * registry.
Variable CU_cleanup_registry : registry → registry.

(** A computation over the registry that records the calls made. *)
Definition runner (A : Type) : Type :=
  registry * list call → A * (registry * list call).

#[local] Instance runner_ret : MRet runner := λ A a w, (a, w).

#[local] Instance runner_bind : MBind runner := λ A B k m w,
  let '(a, w') := m w in k a w'.

Definition calling {A} (c : call) (f : registry → A * registry) : runner A :=
  λ w, let '(a, r') := f (fst w) in (a, (r', snd w ++ [c])).

Definition initialize : runner Z := calling initialize_registry CU_initialize_registry.

Definition error : runner Z := calling get_error (λ r, (CU_get_error r, r)).

Definition suite (name : string) (init clean : unit → Z) : runner (option CU_pSuite) :=
  calling (add_suite name) (CU_add_suite name init clean).

Definition test (pSuite : CU_pSuite) (name : string) (f : test_function) :
    runner (option CU_pTest) :=
  calling (add_test name f) (CU_add_test pSuite name f).

Definition set_mode (mode : CU_BasicRunMode) : runner unit :=
  calling (basic_set_mode mode) (λ r, (tt, CU_basic_set_mode mode r)).

Definition run_tests : runner Z := calling basic_run_tests CU_basic_run_tests.

Definition cleanup : runner unit :=
  calling cleanup_registry (λ r, (tt, CU_cleanup_registry r)).

(** [NULL == p]. *)
Definition is_null {A} (p : option A) : bool :=
  match p with None => true | Some _ => false end.

(** [int main()]. The second [CU_add_test] is evaluated only when the
    first did not give [NULL], as [||] has it. *)
Definition main : runner Z :=
  code ← initialize;
  if negb (CUE_SUCCESS =? code) then error
  else
    pSuite ← suite "Calculator Test Suite" init_suite clean_suite;
    match pSuite with
    | None => cleanup;; error
    | Some pSuite =>
        first ← test pSuite "Test Add Function" test_add;
        failed ← (if is_null first then mret true
                  else second ← test pSuite "Test Divide by Zero" test_divide_zero;
                       mret (is_null second));
        if failed : bool then cleanup;; error
        else
          set_mode CU_BRM_VERBOSE;;
          run_tests;;
          cleanup;;
          error
    end.

(** An execution of the runner from the registry [r]: the exit status, the
    registry left and the calls made. *)
Definition exit_status (r : registry) : Z := fst (main (r, [])).
Definition final_registry (r : registry) : registry := fst (snd (main (r, []))).
Definition calls (r : registry) : list call := snd (snd (main (r, []))).

(** The calls of a complete run. *)
Definition complete_run : list call :=
  [initialize_registry; add_suite "Calculator Test Suite";
   add_test "Test Add Function" test_add;
   add_test "Test Divide by Zero" test_divide_zero;
   basic_set_mode CU_BRM_VERBOSE; basic_run_tests; cleanup_registry; get_error].

End Runner.

End TestCalc.

(** ** Outcomes across the three interfaces

    [yields a b operation v]: the call succeeds with [v], through the
    contract, through the C interface (status 0, [v] returned) and through
    the C++ interface ([v] returned, nothing thrown). *)

Definition yields (a b : double) (operation : string) (v : double) : Prop :=
  Spec.calculate a b operation = Spec.Ok v
  ∧ (∀ untrusted unknown_status status m,
       Calc.calculate untrusted unknown_status a b operation status m
       = (v, <[status := 0]> m))
  ∧ (∀ message unknown_class,
       Calculator.calculate message unknown_class a b operation = Returns v).

(** [fails a b operation k]: the call fails with the error [k]: no value in
    the contract's result, the status of [k] through the C interface, an
    exception derived from [std::exception] through the C++ interface. *)
Definition fails (a b : double) (operation : string) (k : Spec.CalcError) : Prop :=
  Spec.calculate a b operation = Spec.Err k
  ∧ (∀ untrusted unknown_status status m,
       Calc.calculate untrusted unknown_status a b operation status m
       = (untrusted a b operation, <[status := Calc.error_status unknown_status k]> m))
  ∧ (∀ message unknown_class,
       Calculator.calculate message unknown_class a b operation
       = Throws (Std (Calculator.raise message unknown_class k))).

Import Main.

(** ** The paths through [main]

    [path calculate argv r]: [r] is one of the six ways an execution of
    [main] on [argv] can go. *)
Inductive path (calculate : double → double → string → completion double)
    (argv : list string) : run Z → Prop :=
| path_usage :
    length argv ≠ 4%nat →
    path calculate argv ([Write cerr usage], Returns EXIT_FAILURE)
| path_first_operand e :
    length argv = 4%nat →
    stod (arg argv 2) = Throws e →
    path calculate argv ([Stod (arg argv 2)], Throws e)
| path_second_operand op1 e :
    length argv = 4%nat →
    stod (arg argv 2) = Returns op1 →
    stod (arg argv 3) = Throws e →
    path calculate argv ([Stod (arg argv 2); Stod (arg argv 3)], Throws e)
| path_result op1 op2 v :
    length argv = 4%nat →
    stod (arg argv 2) = Returns op1 →
    stod (arg argv 3) = Returns op2 →
    calculate op1 op2 (arg argv 1) = Returns v →
    path calculate argv
      ([Stod (arg argv 2); Stod (arg argv 3); Calculate op1 op2 (arg argv 1);
        Write cout "Result: "; Write cout (put_double v); Write cout newline],
       Returns EXIT_SUCCESS)
| path_caught op1 op2 e :
    length argv = 4%nat →
    stod (arg argv 2) = Returns op1 →
    stod (arg argv 3) = Returns op2 →
    calculate op1 op2 (arg argv 1) = Throws (Std e) →
    path calculate argv
      ([Stod (arg argv 2); Stod (arg argv 3); Calculate op1 op2 (arg argv 1);
        Write cerr (what e); Write cerr newline],
       Returns EXIT_FAILURE)
| path_not_caught op1 op2 type_name :
    length argv = 4%nat →
    stod (arg argv 2) = Returns op1 →
    stod (arg argv 3) = Returns op2 →
    calculate op1 op2 (arg argv 1) = Throws (Foreign type_name) →
    path calculate argv
      ([Stod (arg argv 2); Stod (arg argv 3); Calculate op1 op2 (arg argv 1)],
       Throws (Foreign type_name)).

(** * Properties *)

(** ** Comparison with zero and subtraction of equals *)

Lemma feqb_zero_r (b : double) (s : bool) : (b == F754_zero s)%double = is_zero b.
Proof. destruct b as [sb|sb|sb p|sb m e]; try destruct sb; reflexivity. Qed.

Lemma feqb_of_Z_0 (b : double) : (b == of_Z 0)%double = is_zero b.
Proof. apply feqb_zero_r. Qed.

Lemma fsub_diag (x : double) : is_finite x = true → (x - x)%double = F754_zero false.
Proof.
  destruct x as [s|s|s p|s m e]; intros Hfin; try discriminate Hfin.
  - destruct s; reflexivity.
  - unfold fsub, SF, SFsub. rewrite Z.sub_diag. reflexivity.
Qed.

(** A finite value passes the tolerance comparison of [test_calc.c]
    against itself. *)
Lemma CU_ASSERT_DOUBLE_EQUAL_refl (x : double) :
  is_finite x = true → Calc.CU_ASSERT_DOUBLE_EQUAL x x (decimal 1 (-4)) = true.
Proof.
  intros Hfin. unfold Calc.CU_ASSERT_DOUBLE_EQUAL.
  rewrite (fsub_diag x Hfin). vm_compute. reflexivity.
Qed.

(** ** The contract decides all three interfaces *)

Lemma yields_intro (a b : double) (operation : string) (v : double) :
  Spec.calculate a b operation = Spec.Ok v → yields a b operation v.
Proof.
  intros H. repeat split; [exact H | |]; intros;
    unfold Calc.calculate, Calculator.calculate; rewrite H; reflexivity.
Qed.

Lemma fails_intro (a b : double) (operation : string) (k : Spec.CalcError) :
  Spec.calculate a b operation = Spec.Err k → fails a b operation k.
Proof.
  intros H. repeat split; [exact H | |]; intros;
    unfold Calc.calculate, Calculator.calculate; rewrite H; reflexivity.
Qed.

Lemma calculate_divide (a b : double) :
  Spec.calculate a b "--divide"
  = if is_zero b then Spec.Err Spec.DivisionByZero else Spec.Ok (a / b)%double.
Proof.
  unfold Spec.calculate. cbn [Spec.select String.eqb Ascii.eqb Bool.eqb Spec.evaluate].
  rewrite feqb_of_Z_0. reflexivity.
Qed.

Lemma select_unknown (operation : string) :
  operation ∉ Spec.tokens → Spec.select operation = None.
Proof.
  unfold Spec.tokens, Spec.select. intros Hnot.
  repeat (apply not_elem_of_cons in Hnot as [? Hnot]);
  repeat match goal with
  | |- context [String.eqb operation ?t] =>
      destruct (String.eqb_spec operation t); [congruence |]
  end.
  reflexivity.
Qed.

(** C1. For every finite operand [a], [calculate a 0 "--divide"] (with a
    zero of either sign) fails with [DivisionByZero]: the contract's result
    carries no value, the C interface writes status 1 and hands back only
    the untrusted value, and the C++ interface throws. *)
Theorem divide_by_zero_fails (a zero : double) :
  is_finite a = true → is_zero zero = true →
  fails a zero "--divide" Spec.DivisionByZero.
Proof.
  intros _ Hzero. apply fails_intro.
  rewrite calculate_divide, Hzero. reflexivity.
Qed.

Lemma divide_by_zero_fails_witness :
  is_finite (of_Z 5) = true ∧ is_zero (of_Z 0) = true
  ∧ fails (of_Z 5) (of_Z 0) "--divide" Spec.DivisionByZero.
Proof.
  split; [reflexivity | split; [reflexivity |]].
  apply (divide_by_zero_fails (of_Z 5) (of_Z 0)); reflexivity.
Defined.

(** C2. For finite operands [a] and [b], [calculate] succeeds with [a + b]
    for [--add], with [a - b] (in that order) for [--subtract], with
    [a * b] for [--multiply] and, when [b] is not zero, with [a / b] for
    [--divide]: the binary64 results themselves, so a finite quotient
    passes the tolerance comparison of the tests against [a / b]. In
    particular 5 + 3 gives 8 and 1 + 1 gives 2, and 5 - 3 gives 2, which
    3 - 5 does not. *)
Theorem calculate_arithmetic (a b : double) :
  is_finite a = true → is_finite b = true →
  yields a b "--add" (a + b)
  ∧ yields a b "--subtract" (a - b)
  ∧ yields a b "--multiply" (a * b)
  ∧ ((b == of_Z 0)%double = false →
       yields a b "--divide" (a / b)
       ∧ (is_finite (a / b)%double = true →
            ∀ v, Spec.calculate a b "--divide" = Spec.Ok v →
                 Calc.CU_ASSERT_DOUBLE_EQUAL v (a / b) (decimal 1 (-4)) = true))
  ∧ yields (of_Z 5) (of_Z 3) "--add" (of_Z 8)
  ∧ yields (of_Z 1) (of_Z 1) "--add" (of_Z 2)
  ∧ yields (of_Z 5) (of_Z 3) "--subtract" (of_Z 2)
  ∧ (of_Z 3 - of_Z 5 == of_Z 2)%double = false.
Proof.
  intros _ _.
  split; [apply yields_intro; reflexivity |].
  split; [apply yields_intro; reflexivity |].
  split; [apply yields_intro; reflexivity |].
  split.
  - intros Hb. rewrite feqb_of_Z_0 in Hb.
    assert (Hdiv : Spec.calculate a b "--divide" = Spec.Ok (a / b)%double)
      by (rewrite calculate_divide, Hb; reflexivity).
    split; [apply yields_intro; exact Hdiv |].
    intros Hfin v Hv. rewrite Hdiv in Hv. injection Hv as <-.
    apply CU_ASSERT_DOUBLE_EQUAL_refl, Hfin.
  - repeat split; try (apply yields_intro); vm_compute; reflexivity.
Qed.

Lemma calculate_arithmetic_witness :
  is_finite (decimal 75 (-1)) = true ∧ is_finite (of_Z (-2)) = true
  ∧ yields (decimal 75 (-1)) (of_Z (-2)) "--subtract" (decimal 95 (-1))
  ∧ yields (decimal 75 (-1)) (of_Z (-2)) "--divide" (decimal (-375) (-2)).
Proof.
  split; [reflexivity | split; [reflexivity |]].
  pose proof (calculate_arithmetic (decimal 75 (-1)) (of_Z (-2))
                eq_refl eq_refl) as (_ & Hsub & _ & Hdiv & _).
  split; [exact Hsub | exact (proj1 (Hdiv eq_refl))].
Defined.

(** C4. For every operation token other than [--add], [--subtract],
    [--multiply] and [--divide], and for all operands, [calculate] fails
    with [UnknownOperation]; the failure is an ordinary result of the call
    (an error value, a status written while a [double] is handed back, or
    an exception derived from [std::exception], which [main] catches). *)
Theorem unknown_operation_fails (a b : double) (operation : string) :
  operation ∉ Spec.tokens →
  fails a b operation Spec.UnknownOperation.
Proof.
  intros Hnot. apply fails_intro. unfold Spec.calculate.
  rewrite (select_unknown operation Hnot). reflexivity.
Qed.

Lemma pow_not_a_token : "--pow"%string ∉ Spec.tokens.
Proof.
  unfold Spec.tokens. intros Hin.
  repeat (apply elem_of_cons in Hin as [Heq | Hin]; [discriminate Heq |]).
  inversion Hin.
Defined.

Lemma unknown_operation_fails_witness :
  ("--pow"%string ∉ Spec.tokens)
  ∧ fails (of_Z 5) (F754_nan false 0) "--pow" Spec.UnknownOperation.
Proof.
  split; [exact pow_not_a_token |].
  apply (unknown_operation_fails (of_Z 5) (F754_nan false 0) "--pow" pow_not_a_token).
Defined.

(** ** The C interface and the store *)

Section Store.

Variable untrusted : double → double → string → double.
Variable unknown_status : Z.

Let calculate := Calc.calculate untrusted unknown_status.

Lemma Calc_calculate_store (a b : double) (operation : string)
    (status : positive) (m : gmap positive Z) :
  snd (calculate a b operation status m)
  = <[status := match Spec.calculate a b operation with
                 | Spec.Ok _ => 0
                 | Spec.Err k => Calc.error_status unknown_status k
                 end]> m.
Proof.
  unfold calculate, Calc.calculate.
  destruct (Spec.calculate a b operation); reflexivity.
Qed.

Lemma Calc_calculate_value (a b : double) (operation : string)
    (status : positive) (m : gmap positive Z) :
  fst (calculate a b operation status m)
  = match Spec.calculate a b operation with
    | Spec.Ok v => v
    | Spec.Err _ => untrusted a b operation
    end.
Proof.
  unfold calculate, Calc.calculate.
  destruct (Spec.calculate a b operation); reflexivity.
Qed.

(** Only the object that [status] points to is written. *)
Lemma Calc_calculate_frame (a b : double) (operation : string)
    (status p : positive) (m : gmap positive Z) :
  p ≠ status → snd (calculate a b operation status m) !! p = m !! p.
Proof.
  intros Hne. rewrite Calc_calculate_store. apply lookup_insert_ne. congruence.
Qed.

(** The status is 0 after a success and 1 after a division by zero. *)
Lemma Calc_status_success (a b v : double) (operation : string)
    (status : positive) (m : gmap positive Z) :
  Spec.calculate a b operation = Spec.Ok v →
  calculate a b operation status m = (v, <[status := 0]> m).
Proof. intros H. unfold calculate, Calc.calculate. rewrite H. reflexivity. Qed.

Lemma Calc_status_division_by_zero (a zero : double)
    (status : positive) (m : gmap positive Z) :
  is_zero zero = true →
  snd (calculate a zero "--divide" status m) !! status = Some 1.
Proof.
  intros Hzero. rewrite Calc_calculate_store, calculate_divide, Hzero.
  apply lookup_insert_eq.
Qed.

Lemma Calc_status_unknown (a b : double) (operation : string)
    (status : positive) (m : gmap positive Z) :
  operation ∉ Spec.tokens →
  snd (calculate a b operation status m) !! status = Some unknown_status.
Proof.
  intros Hnot. rewrite Calc_calculate_store. unfold Spec.calculate.
  rewrite (select_unknown operation Hnot). apply lookup_insert_eq.
Qed.

(** A division by zero and an unknown operation leave the same status
    exactly when the status of an unknown operation is 1 as well. *)
Lemma Calc_status_same_iff (status : positive) (m : gmap positive Z) :
  snd (calculate (of_Z 5) (of_Z 0) "--divide" status m) !! status
  = snd (calculate (of_Z 5) (of_Z 3) "--pow" status m) !! status
  ↔ unknown_status = 1.
Proof.
  rewrite !Calc_calculate_store, !lookup_insert_eq.
  change (Spec.calculate (of_Z 5) (of_Z 0) "--divide")
    with (Spec.Err Spec.DivisionByZero).
  change (Spec.calculate (of_Z 5) (of_Z 3) "--pow")
    with (Spec.Err Spec.UnknownOperation).
  cbn [Calc.error_status]. split; congruence.
Qed.

End Store.

(** ** The tests of the repository *)

(** [test_add] and [test_divide_zero] of [test_calc.c] pass, wherever the
    local [status] lives and whatever the store holds. *)
Lemma test_add_passes untrusted unknown_status (status : positive)
    (m : gmap positive Z) :
  Calc.test_add untrusted unknown_status status m = true.
Proof.
  unfold Calc.test_add.
  change (Calc.calculate untrusted unknown_status (of_Z 5) (of_Z 3) "--add" status m)
    with (of_Z 8, <[status := 0]> m).
  cbv beta iota.
  rewrite lookup_insert_eq, bool_decide_eq_true_2 by reflexivity. reflexivity.
Qed.

Lemma test_divide_zero_passes untrusted unknown_status (status : positive)
    (m : gmap positive Z) :
  Calc.test_divide_zero untrusted unknown_status status m = true.
Proof.
  unfold Calc.test_divide_zero.
  change (Calc.calculate untrusted unknown_status (of_Z 5) (of_Z 0) "--divide" status m)
    with (untrusted (of_Z 5) (of_Z 0) "--divide"%string, <[status := 1]> m).
  cbv beta iota.
  rewrite lookup_insert_eq, bool_decide_eq_true_2 by reflexivity. reflexivity.
Qed.

(** [HandlesAddition] and [HandlesDivision] of [test_calculator.cpp] pass. *)
Lemma HandlesAddition_passes message unknown_class :
  Calculator.HandlesAddition message unknown_class = true.
Proof. reflexivity. Qed.

Lemma HandlesDivision_passes message unknown_class :
  Calculator.HandlesDivision message unknown_class = true.
Proof. reflexivity. Qed.

(** ** The library models on known values *)

Example stod_examples :
  stod "5" = Returns (of_Z 5)
  ∧ stod "  -12.5e1xyz" = Returns (of_Z (-125))
  ∧ stod ".5" = Returns (decimal 5 (-1))
  ∧ stod "0x1.8p1" = Returns (of_Z 3)
  ∧ stod "inf" = Returns (F754_infinity false)
  ∧ stod "" = Throws (Std (Exception std_invalid_argument "stod"))
  ∧ stod "--add" = Throws (Std (Exception std_invalid_argument "stod"))
  ∧ stod "1e999" = Throws (Std (Exception std_out_of_range "stod")).
Proof. repeat split; vm_compute; reflexivity. Qed.

Example put_double_examples :
  map put_double
    [of_Z 8; of_Z 2; decimal 5 (-1); of_Z 1000000; of_Z 123456789;
     decimal 1 (-4); decimal 1 (-5); decimal 1000005 (-1); decimal 9999995 (-1);
     of_Z (-3); fdiv (of_Z 1) (of_Z 3); fdiv (of_Z 5) (of_Z 3);
     F754_zero true; F754_infinity false]
  = ["8"; "2"; "0.5"; "1e+06"; "1.23457e+08";
     "0.0001"; "1e-05"; "100000"; "1e+06";
     "-3"; "0.333333"; "1.66667";
     "-0"; "inf"]%string.
Proof. vm_compute. reflexivity. Qed.

(** ** The paths through [main] *)

(** Takes the branch of [main] for four arguments. *)
Ltac four_arguments H :=
  unfold main, call_stod, call_calculate; rewrite H;
  cbn [Z.of_nat Pos.of_succ_nat Pos.succ Z.eqb Pos.eqb negb].

(** Runs [main] along the results of the calls, given as equations. *)
Ltac along_calls :=
  repeat match goal with
  | H : stod _ = _ |- _ => rewrite H; clear H; cbn
  | H : _ = Returns _ |- _ => rewrite H; clear H; cbn
  | H : _ = Throws _ |- _ => rewrite H; clear H; cbn
  end;
  reflexivity.

Section Paths.

Variable calculate : double → double → string → completion double.
Variable argv : list string.

Lemma main_wrong_count :
  length argv ≠ 4%nat →
  main calculate argv = ([Write cerr usage], Returns EXIT_FAILURE).
Proof.
  intros Hlen. unfold main.
  destruct (Z.eqb_spec (Z.of_nat (length argv)) 4) as [Heq | _]; [lia |].
  reflexivity.
Qed.

Hypothesis right_count : length argv = 4%nat.

Lemma main_first_operand_throws (e : thrown) :
  stod (arg argv 2) = Throws e →
  main calculate argv = ([Stod (arg argv 2)], Throws e).
Proof.
  intros H1. four_arguments right_count. along_calls.
Qed.

Lemma main_second_operand_throws (op1 : double) (e : thrown) :
  stod (arg argv 2) = Returns op1 →
  stod (arg argv 3) = Throws e →
  main calculate argv = ([Stod (arg argv 2); Stod (arg argv 3)], Throws e).
Proof.
  intros H1 H2. four_arguments right_count. along_calls.
Qed.

Section Converted.

Variables op1 op2 : double.
Hypothesis first_converted : stod (arg argv 2) = Returns op1.
Hypothesis second_converted : stod (arg argv 3) = Returns op2.

Lemma main_result (v : double) :
  calculate op1 op2 (arg argv 1) = Returns v →
  main calculate argv
  = ([Stod (arg argv 2); Stod (arg argv 3); Calculate op1 op2 (arg argv 1);
      Write cout "Result: "; Write cout (put_double v); Write cout newline],
     Returns EXIT_SUCCESS).
Proof.
  intros Hc. four_arguments right_count.
  rewrite first_converted; cbn. rewrite second_converted; cbn. along_calls.
Qed.

Lemma main_caught (e : exception) :
  calculate op1 op2 (arg argv 1) = Throws (Std e) →
  main calculate argv
  = ([Stod (arg argv 2); Stod (arg argv 3); Calculate op1 op2 (arg argv 1);
      Write cerr (what e); Write cerr newline],
     Returns EXIT_FAILURE).
Proof.
  intros Hc. four_arguments right_count.
  rewrite first_converted; cbn. rewrite second_converted; cbn. along_calls.
Qed.

Lemma main_not_caught (type_name : string) :
  calculate op1 op2 (arg argv 1) = Throws (Foreign type_name) →
  main calculate argv
  = ([Stod (arg argv 2); Stod (arg argv 3); Calculate op1 op2 (arg argv 1)],
     Throws (Foreign type_name)).
Proof.
  intros Hc. four_arguments right_count.
  rewrite first_converted; cbn. rewrite second_converted; cbn. along_calls.
Qed.

End Converted.

End Paths.

Lemma main_path calculate (argv : list string) :
  path calculate argv (main calculate argv).
Proof.
  destruct (decide (length argv = 4%nat)) as [Hlen | Hlen].
  - destruct (stod (arg argv 2)) as [op1 | e1] eqn:H1.
    + destruct (stod (arg argv 3)) as [op2 | e2] eqn:H2.
      * destruct (calculate op1 op2 (arg argv 1)) as [v | [e | type_name]] eqn:Hc.
        -- rewrite (main_result calculate argv Hlen op1 op2 H1 H2 v Hc).
           eapply path_result; eassumption.
        -- rewrite (main_caught calculate argv Hlen op1 op2 H1 H2 e Hc).
           eapply path_caught; eassumption.
        -- rewrite (main_not_caught calculate argv Hlen op1 op2 H1 H2 type_name Hc).
           eapply path_not_caught; eassumption.
      * rewrite (main_second_operand_throws calculate argv Hlen op1 e2 H1 H2).
        eapply path_second_operand; eassumption.
    + rewrite (main_first_operand_throws calculate argv Hlen e1 H1).
      apply path_first_operand; assumption.
  - rewrite (main_wrong_count calculate argv Hlen). apply path_usage, Hlen.
Qed.

Lemma written_newline_nonempty (text : string) : text +:+ newline ≠ ""%string.
Proof. destruct text; discriminate. Qed.

(** ** [std::stod] and what follows a number *)

Lemma digits_cons (c : ascii) (s : string) (acc n : Z) :
  digits 10 (String c s) acc n
  = if isdigit c then digits 10 s (10 * acc + (code c - 48)) (n + 1)
    else (acc, n, String c s).
Proof.
  change (digits 10 (String c s) acc n)
    with (match (if isdigit c then xdigit c else None) with
          | Some d => digits 10 s (10 * acc + d) (n + 1)
          | None => (acc, n, String c s)
          end).
  unfold xdigit. destruct (isdigit c); reflexivity.
Qed.

Lemma digits_stop (t : string) (acc n : Z) :
  ends_number t = true → digits 10 t acc n = (acc, n, t).
Proof.
  destruct t as [| c t]; [reflexivity |]. rewrite digits_cons.
  unfold ends_number, continues. intros H.
  destruct (isdigit c); [discriminate H | reflexivity].
Qed.

Lemma digits_app (d t : string) (acc n : Z) :
  all_digits d = true → ends_number t = true →
  digits 10 (d +:+ t) acc n = (number d acc, n + Z.of_nat (String.length d), t).
Proof.
  revert acc n. induction d as [| c d IH]; intros acc n Hd Ht.
  - change ("" +:+ t) with t. cbn [number String.length Z.of_nat].
    rewrite Z.add_0_r. apply digits_stop, Ht.
  - cbn [all_digits] in Hd. apply andb_prop in Hd as [Hc Hd].
    change (String c d +:+ t) with (String c (d +:+ t)).
    rewrite digits_cons, Hc, IH by assumption.
    cbn [number String.length]. f_equal. f_equal. lia.
Qed.

Lemma sign_digit (c : ascii) (s : string) :
  isdigit c = true → sign (String c s) = (false, String c s).
Proof.
  destruct c as [[] [] [] [] [] [] [] []]; intros H; try discriminate H; reflexivity.
Qed.

Lemma skip_spaces_digit (c : ascii) (s : string) :
  isdigit c = true → skip_spaces (String c s) = String c s.
Proof.
  intros H. cbn [skip_spaces].
  replace (isspace c) with false; [reflexivity |].
  unfold isdigit, isspace in *. lia.
Qed.

Lemma hexadecimal_digits (neg : bool) (c : ascii) (d t : string) :
  isdigit c = true → all_digits d = true → ends_number t = true →
  hexadecimal neg (String c (d +:+ t)) = None.
Proof.
  intros Hc Hd Ht. unfold hexadecimal.
  replace (strip_nocase "0x" (String c (d +:+ t))) with (@None string); [reflexivity |].
  cbn [strip_nocase]. destruct (Ascii.eqb "0" (tolower c)); [| reflexivity].
  destruct d as [| c' d].
  - change ("" +:+ t) with t. destruct t as [| c' t]; [reflexivity |].
    cbn [ends_number] in Ht. unfold continues in Ht. rewrite (Ascii.eqb_sym "x").
    destruct (Ascii.eqb (tolower c') "x"); [| reflexivity].
    rewrite orb_true_r in Ht. discriminate Ht.
  - change (String c' d +:+ t) with (String c' (d +:+ t)).
    cbn [all_digits] in Hd. apply andb_prop in Hd as [Hc' _].
    replace (Ascii.eqb "x" (tolower c')) with false; [reflexivity |].
    clear -Hc'. destruct c' as [[] [] [] [] [] [] [] []]; try discriminate Hc'; reflexivity.
Qed.

Lemma mantissa_digits (d t : string) :
  all_digits d = true → ends_number t = true →
  mantissa 10 (d +:+ t) = (number d 0, Z.of_nat (String.length d), 0, t).
Proof.
  intros Hd Ht. unfold mantissa. rewrite digits_app by assumption.
  rewrite Z.add_0_l.
  destruct t as [| c t]; [reflexivity |].
  cbn [ends_number] in Ht. unfold continues in Ht.
  destruct c as [[] [] [] [] [] [] [] []]; try discriminate Ht; reflexivity.
Qed.

Lemma exponent_stop (t : string) :
  ends_number t = true → exponent "e" t = (0, t).
Proof.
  destruct t as [| c t]; [reflexivity |]. cbn [ends_number exponent].
  unfold continues. intros Ht.
  destruct (Ascii.eqb (tolower c) "e"); [| reflexivity].
  rewrite orb_true_r in Ht. discriminate Ht.
Qed.

Lemma strtod_digits (d t : string) :
  d ≠ ""%string → all_digits d = true → ends_number t = true →
  strtod (d +:+ t) = Some (finite_literal false 10 (number d 0) 0 t).
Proof.
  intros Hne Hd Ht. destruct d as [| c d]; [congruence |].
  pose proof Hd as Hcd. cbn [all_digits] in Hcd. apply andb_prop in Hcd as [Hc Hd'].
  unfold strtod. change (String c d +:+ t) with (String c (d +:+ t)).
  rewrite skip_spaces_digit, sign_digit, hexadecimal_digits by assumption.
  change (String c (d +:+ t)) with (String c d +:+ t).
  unfold decimal_literal. rewrite mantissa_digits by assumption.
  rewrite exponent_stop by assumption.
  cbn [String.length].
  destruct (Z.eqb_spec (Z.of_nat (S (String.length d)) + 0) 0) as [Heq | _]; [lia |].
  reflexivity.
Qed.

Lemma append_empty_r (s : string) : s +:+ "" = s.
Proof.
  induction s as [| c s IH]; [reflexivity |].
  change (String c s +:+ "") with (String c (s +:+ "")). rewrite IH. reflexivity.
Qed.

(** What [std::stod] throws is derived from [std::exception]. *)
Lemma stod_throws (str : string) (e : thrown) :
  stod str = Throws e →
  e = Std (Exception std_invalid_argument "stod")
  ∨ e = Std (Exception std_out_of_range "stod").
Proof.
  unfold stod. destruct (strtod str) as [[[x erange] rest] |].
  - destruct erange; intros H; [injection H as <-; right; reflexivity | discriminate H].
  - intros H. injection H as <-. left. reflexivity.
Qed.

(** After a run of digits, [std::stod] ignores whatever cannot continue the
    number: the operand is read as the digits alone. *)
Lemma stod_ignores_suffix (d t : string) :
  d ≠ ""%string → all_digits d = true → ends_number t = true →
  stod (d +:+ t) = stod d.
Proof.
  intros Hne Hd Ht. unfold stod.
  rewrite (strtod_digits d t Hne Hd Ht).
  rewrite <- (append_empty_r d) at 2.
  rewrite (strtod_digits d "" Hne Hd eq_refl).
  unfold finite_literal. destruct (scaled 10 (number d 0) 0). reflexivity.
Qed.

(** ** The command line *)

(** C6. Whenever the argument count is not the program name followed by
    exactly three positional arguments ([argc] is not 4), [main] prints the
    usage message on standard error, prints nothing on standard output and
    returns [EXIT_FAILURE], which is not zero. *)
Theorem wrong_argument_count_is_usage_error calculate (argv : list string) :
  length argv ≠ 4%nat →
  written cerr (trace_of (main calculate argv)) = usage
  ∧ written cout (trace_of (main calculate argv)) = ""%string
  ∧ outcome_of (main calculate argv) = Exit EXIT_FAILURE
  ∧ EXIT_FAILURE ≠ 0%Z.
Proof.
  intros Hlen. rewrite (main_wrong_count calculate argv Hlen).
  repeat split. discriminate.
Qed.

Lemma wrong_argument_count_is_usage_error_witness :
  length ["./calculator"; "--add"; "5"]%string ≠ 4%nat
  ∧ outcome_of (main (λ a b _, Returns (a + b)%double)
                  ["./calculator"; "--add"; "5"]%string)
    = Exit 1.
Proof.
  split; [discriminate |].
  apply (wrong_argument_count_is_usage_error (λ a b _, Returns (a + b)%double)
           ["./calculator"; "--add"; "5"]%string).
  discriminate.
Defined.

(** C10. [main] checks the argument count before anything else: when
    [argc] is not 4 its whole execution is the write of the usage line to
    standard error followed by the return of [EXIT_FAILURE]; no operand
    string is given to [std::stod] and [calculate] is not invoked, so the
    execution is the same whatever [calculate] is. *)
Theorem argument_count_checked_first calculate (argv : list string) :
  Z.of_nat (length argv) ≠ 4%Z →
  main calculate argv = ([Write cerr usage], Returns EXIT_FAILURE)
  ∧ Forall (λ ev, is_call ev = false) (trace_of (main calculate argv))
  ∧ ∀ calculate', main calculate' argv = main calculate argv.
Proof.
  intros Hargc.
  assert (Hlen : length argv ≠ 4%nat) by lia.
  split; [apply main_wrong_count, Hlen | split].
  - rewrite (main_wrong_count calculate argv Hlen). repeat constructor.
  - intros calculate'. rewrite !main_wrong_count by exact Hlen. reflexivity.
Qed.

Lemma argument_count_checked_first_witness :
  Z.of_nat (length ["./calculator"; "--add"; "x"; "y"; "z"]%string) ≠ 4%Z
  ∧ trace_of (main (λ _ _ _, Throws (Foreign "int"))
                ["./calculator"; "--add"; "x"; "y"; "z"]%string)
    = [Write cerr usage].
Proof.
  split; [discriminate |].
  exact (f_equal fst
           (proj1 (argument_count_checked_first (λ _ _ _, Throws (Foreign "int"))
                     ["./calculator"; "--add"; "x"; "y"; "z"]%string
                     ltac:(discriminate)))).
Defined.

(** C9. Through the C++ interface a division by zero is signalled by
    throwing [std::invalid_argument], a class derived from
    [std::exception]; and whenever [calculate] throws an object derived
    from [std::exception] in the [try] block of [main], [main] prints its
    [what()] and a newline on standard error, prints nothing on standard
    output and returns [EXIT_FAILURE]. *)
Theorem exception_reported_on_stderr calculate (argv : list string)
    (op1 op2 : double) (e : exception) :
  length argv = 4%nat →
  stod (arg argv 2) = Returns op1 →
  stod (arg argv 3) = Returns op2 →
  calculate op1 op2 (arg argv 1) = Throws (Std e) →
  (written cerr (trace_of (main calculate argv)) = what e +:+ newline
   ∧ written cout (trace_of (main calculate argv)) = ""%string
   ∧ outcome_of (main calculate argv) = Exit EXIT_FAILURE)
  ∧ (∀ message unknown_class a zero,
       is_zero zero = true →
       ∃ e', Calculator.calculate message unknown_class a zero "--divide"
             = Throws (Std e')
             ∧ class_of e' = std_invalid_argument
             ∧ derives_from (class_of e') std_exception = true
             ∧ Calculator.EXPECT_THROW
                 (Calculator.calculate message unknown_class a zero "--divide")
                 std_invalid_argument = true).
Proof.
  intros Hlen H1 H2 Hc. split.
  - rewrite (main_caught calculate argv Hlen op1 op2 H1 H2 e Hc).
    unfold trace_of, outcome_of. cbn.
    repeat split.
  - intros message unknown_class a zero Hzero.
    exists (Calculator.raise message unknown_class Spec.DivisionByZero).
    unfold Calculator.calculate. rewrite calculate_divide, Hzero.
    repeat split.
Qed.

Lemma exception_reported_on_stderr_witness :
  stod "1" = Returns (of_Z 1) ∧ stod "0" = Returns (of_Z 0)
  ∧ written cerr
      (trace_of (main (Calculator.calculate (λ _, "Division by zero"%string)
                         std_invalid_argument)
                   ["./calculator"; "--divide"; "1"; "0"]%string))
    = ("Division by zero" +:+ newline)%string
  ∧ outcome_of (main (Calculator.calculate (λ _, "Division by zero"%string)
                        std_invalid_argument)
                  ["./calculator"; "--divide"; "1"; "0"]%string)
    = Exit 1.
Proof.
  split; [reflexivity | split; [reflexivity |]].
  pose proof (exception_reported_on_stderr
                (Calculator.calculate (λ _, "Division by zero"%string)
                   std_invalid_argument)
                ["./calculator"; "--divide"; "1"; "0"]%string
                (of_Z 1) (of_Z 0)
                (Exception std_invalid_argument "Division by zero")
                eq_refl eq_refl eq_refl eq_refl) as [(Herr & _ & Hexit) _].
  split; [exact Herr | exact Hexit].
Defined.

(** C3 fails as stated: the operand ["5abc"] is not a numeric literal, yet
    the invocation succeeds: [std::stod] converts the prefix ["5"] and
    ignores the rest. *)
Lemma malformed_operand_accepted :
  length ["./calculator"; "--add"; "5abc"; "3"]%string = 4%nat
  ∧ is_decimal_literal "5abc" = false
  ∧ stod "5abc" = Returns (of_Z 5)
  ∧ ∀ message unknown_class,
      main (Calculator.calculate message unknown_class)
        ["./calculator"; "--add"; "5abc"; "3"]%string
      = ([Stod "5abc"; Stod "3"; Calculate (of_Z 5) (of_Z 3) "--add";
          Write cout "Result: "; Write cout "8"; Write cout newline],
         Returns EXIT_SUCCESS).
Proof.
  split; [reflexivity | split; [reflexivity | split; [reflexivity |]]].
  intros message unknown_class. vm_compute. reflexivity.
Qed.

(** ** The process *)

(** When [main] returns, the process exits with the status returned, having
    written what [main] wrote. *)
Lemma execute_returns (t : list event) (status : Z) :
  execute (t, Returns status)
  = Process (written cout t) (written cerr t) (Exited (status mod 256)).
Proof. reflexivity. Qed.

(** When an exception leaves [main], the process is aborted, standard error
    ends with the report of the runtime, and a shell gives status 134. *)
Lemma execute_throws (t : list event) (e : thrown) :
  execute (t, Throws e)
  = Process (written cout t) (written cerr t +:+ terminate_report e) (Killed SIGABRT)
  ∧ shell_status (execute (t, Throws e)) = 134.
Proof. split; reflexivity. Qed.

Lemma terminate_report_nonempty (e : thrown) : terminate_report e ≠ ""%string.
Proof. destruct e; discriminate. Qed.

(** When an exception leaves [main], [main] has written nothing: no text is
    held in the buffer of [std::cout] when the process is aborted, and
    standard error holds the report alone. *)
Lemma no_output_before_throw calculate (argv : list string) (e : thrown) :
  snd (main calculate argv) = Throws e →
  written cout (fst (main calculate argv)) = ""%string
  ∧ written cerr (fst (main calculate argv)) = ""%string
  ∧ execute (main calculate argv) = Process "" (terminate_report e) (Killed SIGABRT).
Proof.
  destruct (main_path calculate argv); cbn [snd fst]; intros He;
    try discriminate He; injection He as <-; repeat split.
Qed.

(** The process is determined by what [main] wrote and how it ended. *)
Lemma execute_determined (r r' : run Z) :
  written cout (trace_of r) = written cout (trace_of r') →
  written cerr (trace_of r) = written cerr (trace_of r') →
  outcome_of r = outcome_of r' →
  execute r = execute r'.
Proof.
  destruct r as [t c], r' as [t' c']. unfold trace_of, outcome_of, execute. cbn [fst snd].
  intros -> -> Hc. destruct c, c'; try discriminate Hc; injection Hc as <-; reflexivity.
Qed.

(** The process when [std::stod] throws on an operand. *)
Lemma execute_operand_throws calculate (argv : list string) (e : thrown) :
  length argv = 4%nat →
  (stod (arg argv 2) = Throws e
   ∨ ∃ op1, stod (arg argv 2) = Returns op1 ∧ stod (arg argv 3) = Throws e) →
  execute (main calculate argv) = Process "" (terminate_report e) (Killed SIGABRT).
Proof.
  intros Hlen [H1 | (op1 & H1 & H2)].
  - rewrite (main_first_operand_throws calculate argv Hlen e H1). reflexivity.
  - rewrite (main_second_operand_throws calculate argv Hlen op1 e H1 H2). reflexivity.
Qed.

(** C3, for the operands that [std::stod] cannot convert. For every
    invocation with the correct argument count in which [std::stod] rejects
    an operand, the invocation fails: text appears on standard error, the
    process ends with a status that is not zero, nothing is printed on
    standard output and [calculate] is not invoked. An operand that
    [std::stod] does convert is accepted, whatever follows the converted
    prefix, and the calculation proceeds with the converted values: digits
    followed by anything that cannot continue a number are read as the
    digits alone, and ["5abc"], which is not a decimal literal, is read as
    5. *)
Theorem unconvertible_operand_fails calculate (argv : list string) (e : thrown) :
  length argv = 4%nat →
  (stod (arg argv 2) = Throws e
   ∨ ∃ op1, stod (arg argv 2) = Returns op1 ∧ stod (arg argv 3) = Throws e) →
  (stderr (execute (main calculate argv)) ≠ ""%string
   ∧ shell_status (execute (main calculate argv)) ≠ 0
   ∧ stdout (execute (main calculate argv)) = ""%string
   ∧ Forall (λ ev, ∀ a b operation, ev ≠ Calculate a b operation)
       (trace_of (main calculate argv)))
  ∧ (∀ argv' op1 op2,
       length argv' = 4%nat →
       stod (arg argv' 2) = Returns op1 →
       stod (arg argv' 3) = Returns op2 →
       ∃ t, trace_of (main calculate argv')
            = Stod (arg argv' 2) :: Stod (arg argv' 3)
              :: Calculate op1 op2 (arg argv' 1) :: t)
  ∧ (∀ d t,
       d ≠ ""%string → all_digits d = true → ends_number t = true →
       stod (d +:+ t) = stod d)
  ∧ stod "5abc" = Returns (of_Z 5)
  ∧ is_decimal_literal "5abc" = false.
Proof.
  intros Hlen Hthrow.
  split; [| split; [| split; [exact stod_ignores_suffix | split; reflexivity]]].
  - rewrite (execute_operand_throws calculate argv e Hlen Hthrow).
    cbn [stderr stdout]. split; [apply terminate_report_nonempty |].
    split; [discriminate | split; [reflexivity |]].
    destruct Hthrow as [H1 | (op1 & H1 & H2)].
    + rewrite (main_first_operand_throws calculate argv Hlen e H1).
      repeat constructor; discriminate.
    + rewrite (main_second_operand_throws calculate argv Hlen op1 e H1 H2).
      repeat constructor; discriminate.
  - intros argv' op1 op2 Hlen' H1 H2.
    destruct (calculate op1 op2 (arg argv' 1)) as [v | [e' | type_name]] eqn:Hc.
    + rewrite (main_result calculate argv' Hlen' op1 op2 H1 H2 v Hc).
      eexists; reflexivity.
    + rewrite (main_caught calculate argv' Hlen' op1 op2 H1 H2 e' Hc).
      eexists; reflexivity.
    + rewrite (main_not_caught calculate argv' Hlen' op1 op2 H1 H2 type_name Hc).
      eexists; reflexivity.
Qed.

Lemma unconvertible_operand_fails_witness :
  length ["./calculator"; "--add"; "abc"; "3"]%string = 4%nat
  ∧ stod "abc" = Throws (Std (Exception std_invalid_argument "stod"))
  ∧ stderr (execute (main (λ a b _, Returns (a + b)%double)
                       ["./calculator"; "--add"; "abc"; "3"]%string))
    ≠ ""%string
  ∧ shell_status (execute (main (λ a b _, Returns (a + b)%double)
                             ["./calculator"; "--add"; "abc"; "3"]%string))
    ≠ 0.
Proof.
  split; [reflexivity | split; [reflexivity |]].
  pose proof (unconvertible_operand_fails (λ a b _, Returns (a + b)%double)
                ["./calculator"; "--add"; "abc"; "3"]%string
                (Std (Exception std_invalid_argument "stod"))
                eq_refl (or_introl eq_refl)) as [(Herr & Hstatus & _) _].
  split; [exact Herr | exact Hstatus].
Defined.

(** C5. Every invocation that succeeds (the process ends with status 0) has
    printed [Result: <value>] and a newline on standard output, the value
    being what [calculate] returned for the converted operands, and nothing
    on standard error; and whenever both operands convert and [calculate]
    returns, the invocation succeeds in this way. Every invocation that
    fails (the status is not 0) has text on standard error and nothing on
    standard output, and an invocation fails whenever the argument count is
    wrong, [std::stod] rejects an operand, or [calculate] throws. With the
    calculator of the contract, a division by zero and an unknown operation
    give the message of the error on standard error and status
    [EXIT_FAILURE]. *)
Theorem exit_status_and_streams calculate (argv : list string) :
  let p := execute (main calculate argv) in
  (shell_status p = 0 →
     ∃ op1 op2 v,
       stod (arg argv 2) = Returns op1 ∧ stod (arg argv 3) = Returns op2
       ∧ calculate op1 op2 (arg argv 1) = Returns v
       ∧ stdout p = ("Result: " +:+ put_double v +:+ newline)%string
       ∧ stderr p = ""%string)
  ∧ (∀ op1 op2 v,
       length argv = 4%nat →
       stod (arg argv 2) = Returns op1 → stod (arg argv 3) = Returns op2 →
       calculate op1 op2 (arg argv 1) = Returns v →
       shell_status p = 0
       ∧ stdout p = ("Result: " +:+ put_double v +:+ newline)%string)
  ∧ (shell_status p ≠ 0 → stderr p ≠ ""%string ∧ stdout p = ""%string)
  ∧ (length argv ≠ 4%nat
     ∨ (∃ e, stod (arg argv 2) = Throws e)
     ∨ (∃ op1 e, stod (arg argv 2) = Returns op1 ∧ stod (arg argv 3) = Throws e)
     ∨ (∃ op1 op2 e,
          stod (arg argv 2) = Returns op1 ∧ stod (arg argv 3) = Returns op2
          ∧ calculate op1 op2 (arg argv 1) = Throws e) →
     shell_status p ≠ 0)
  ∧ (∀ message unknown_class op1 op2 k,
       length argv = 4%nat →
       stod (arg argv 2) = Returns op1 → stod (arg argv 3) = Returns op2 →
       Spec.calculate op1 op2 (arg argv 1) = Spec.Err k →
       let p' := execute (main (Calculator.calculate message unknown_class) argv) in
       shell_status p' = EXIT_FAILURE ∧ EXIT_FAILURE ≠ 0
       ∧ stderr p' = (message k +:+ newline)%string
       ∧ stdout p' = ""%string).
Proof.
  cbv zeta. split; [| split; [| split; [| split]]].
  - destruct (main_path calculate argv); cbn; intros Hexit; try discriminate Hexit.
    exists op1, op2, v. repeat split; assumption.
  - intros op1 op2 v Hlen H1 H2 Hc.
    rewrite (main_result calculate argv Hlen op1 op2 H1 H2 v Hc).
    split; reflexivity.
  - destruct (main_path calculate argv); cbn; intros Hexit;
      try (exfalso; apply Hexit; reflexivity);
      (split; [| reflexivity]);
      try apply terminate_report_nonempty; try discriminate.
    apply written_newline_nonempty.
  - intros Hfail.
    destruct (main_path calculate argv) as
      [Hlen | e Hlen H1 | op1 e Hlen H1 H2 | op1 op2 v Hlen H1 H2 Hc
       | op1 op2 e Hlen H1 H2 Hc | op1 op2 type_name Hlen H1 H2 Hc];
      cbn; try discriminate.
    exfalso.
    destruct Hfail as [Hne | [(e & E1) | [(o1 & e & _ & E2) | (o1 & o2 & e & E1 & E2 & Ec)]]];
      congruence.
  - intros message unknown_class op1 op2 k Hlen H1 H2 Hk.
    rewrite (main_caught _ argv Hlen op1 op2 H1 H2
               (Calculator.raise message unknown_class k))
      by (unfold Calculator.calculate; rewrite Hk; reflexivity).
    destruct k; repeat split; discriminate.
Qed.

Lemma exit_status_and_streams_witness :
  shell_status
    (execute (main (Calculator.calculate (λ _, "error"%string) std_invalid_argument)
                ["./calculator"; "--multiply"; "2.5"; "-4"]%string))
  = 0
  ∧ ∃ op1 op2 v,
      stod "2.5" = Returns op1 ∧ stod "-4" = Returns op2
      ∧ Calculator.calculate (λ _, "error"%string) std_invalid_argument
          op1 op2 "--multiply" = Returns v
      ∧ stdout
          (execute (main (Calculator.calculate (λ _, "error"%string)
                            std_invalid_argument)
                      ["./calculator"; "--multiply"; "2.5"; "-4"]%string))
        = ("Result: " +:+ put_double v +:+ newline)%string
      ∧ stderr
          (execute (main (Calculator.calculate (λ _, "error"%string)
                            std_invalid_argument)
                      ["./calculator"; "--multiply"; "2.5"; "-4"]%string))
        = ""%string.
Proof.
  split; [reflexivity |].
  exact (proj1 (exit_status_and_streams
                  (Calculator.calculate (λ _, "error"%string) std_invalid_argument)
                  ["./calculator"; "--multiply"; "2.5"; "-4"]%string)
           eq_refl).
Defined.

(** ** Invocations, run *)

Example invocations :
  let calculate := Calculator.calculate (λ _, "error"%string) std_invalid_argument in
  let run argv :=
    (written cout (trace_of (main calculate argv)),
     written cerr (trace_of (main calculate argv)),
     outcome_of (main calculate argv)) in
  run ["./calculator"; "--add"; "5"; "3"]%string
  = (("Result: 8" +:+ newline)%string, ""%string, Exit 0)
  ∧ run ["./calculator"; "--divide"; "1"; "3"]%string
    = (("Result: 0.333333" +:+ newline)%string, ""%string, Exit 0)
  ∧ run ["./calculator"; "--subtract"; "1e3"; "0.5"]%string
    = (("Result: 999.5" +:+ newline)%string, ""%string, Exit 0)
  ∧ run ["./calculator"; "--divide"; "5"; "0"]%string
    = (""%string, ("error" +:+ newline)%string, Exit 1)
  ∧ run ["./calculator"; "--power"; "5"; "2"]%string
    = (""%string, ("error" +:+ newline)%string, Exit 1)
  ∧ run ["./calculator"]%string = (""%string, usage, Exit 1)
  ∧ run ["./calculator"; "--add"; "five"; "3"]%string
    = (""%string, ""%string,
       Terminate (Std (Exception std_invalid_argument "stod"))).
Proof. cbv zeta. repeat split; vm_compute; reflexivity. Qed.

(** The same as processes, with results that are not numbers and operands
    that [std::stod] rejects. *)
Example processes :
  let calculate := Calculator.calculate (λ _, "error"%string) std_invalid_argument in
  let run argv := execute (main calculate argv) in
  run ["./calculator"; "--add"; "5"; "3"]%string
  = Process ("Result: 8" +:+ newline) "" (Exited 0)
  ∧ run ["./calculator"; "--divide"; "5"; "0"]%string
    = Process "" ("error" +:+ newline) (Exited 1)
  ∧ run ["./calculator"; "--add"; "-nan"; "1"]%string
    = Process ("Result: -nan" +:+ newline) "" (Exited 0)
  ∧ run ["./calculator"; "--add"; "nan"; "1"]%string
    = Process ("Result: nan" +:+ newline) "" (Exited 0)
  ∧ run ["./calculator"; "--subtract"; "inf"; "inf"]%string
    = Process ("Result: -nan" +:+ newline) "" (Exited 0)
  ∧ run ["./calculator"; "--multiply"; "-inf"; "2"]%string
    = Process ("Result: -inf" +:+ newline) "" (Exited 0)
  ∧ run ["./calculator"; "--add"; "five"; "3"]%string
    = Process ""
        ("terminate called after throwing an instance of 'std::invalid_argument'"
         +:+ newline +:+ "  what():  stod" +:+ newline)
        (Killed 6)
  ∧ run ["./calculator"; "--add"; "5"; "1e999"]%string
    = Process ""
        ("terminate called after throwing an instance of 'std::out_of_range'"
         +:+ newline +:+ "  what():  stod" +:+ newline)
        (Killed 6)
  ∧ shell_status (run ["./calculator"; "--add"; "five"; "3"]%string) = 134
  ∧ stod "2.2250738585072012e-308" = Throws (Std (Exception std_out_of_range "stod"))
  ∧ stod "2.2250738585072014e-308" = Returns (F754_finite false (2 ^ 52) (-1074))
  ∧ stod "-nan(0x10)" = Returns (F754_nan true 16).
Proof. cbv zeta. repeat split; vm_compute; reflexivity. Qed.

(** * Further properties of [main.cpp] *)

(** X1. In every execution of [main] at most one of the two streams is
    written, the exit status is 0 or 1 and no other, it is 0 exactly when
    something was written to standard output and 1 exactly when something
    was written to standard error. *)
Theorem status_matches_stream calculate (argv : list string) :
  let r := main calculate argv in
  (written cout (trace_of r) = ""%string ∨ written cerr (trace_of r) = ""%string)
  ∧ (∀ status, outcome_of r = Exit status →
               status = EXIT_SUCCESS ∨ status = EXIT_FAILURE)
  ∧ (outcome_of r = Exit EXIT_SUCCESS ↔ written cout (trace_of r) ≠ ""%string)
  ∧ (outcome_of r = Exit EXIT_FAILURE ↔ written cerr (trace_of r) ≠ ""%string).
Proof.
  cbv zeta.
  destruct (main_path calculate argv); unfold outcome_of, trace_of; cbn;
    (split; [first [left; reflexivity | right; reflexivity] |]);
    (split; [intros status Hs; try discriminate Hs; injection Hs as <-;
             first [left; reflexivity | right; reflexivity] |]);
    split; split; intros Hs;
    try discriminate Hs; try reflexivity; try (exfalso; apply Hs; reflexivity);
    try discriminate.
  apply written_newline_nonempty.
Qed.

(** X2. [main] makes its calls in one order and writes only afterwards:
    [std::stod] on [argv[2]], then on [argv[3]], then one call of
    [calculate] with the two converted values and [argv[1]] as it was
    given; the execution may stop after any of them, but there is never a
    further call, and nothing is written before the last call has ended. *)
Theorem calls_precede_output calculate (argv : list string) :
  ∃ calls writes,
    trace_of (main calculate argv) = calls ++ writes
    ∧ Forall (λ ev, is_call ev = true) calls
    ∧ Forall (λ ev, is_call ev = false) writes
    ∧ (calls = []
       ∨ calls = [Stod (arg argv 2)]
       ∨ calls = [Stod (arg argv 2); Stod (arg argv 3)]
       ∨ ∃ op1 op2,
           stod (arg argv 2) = Returns op1 ∧ stod (arg argv 3) = Returns op2
           ∧ calls = [Stod (arg argv 2); Stod (arg argv 3);
                      Calculate op1 op2 (arg argv 1)]).
Proof.
  destruct (main_path calculate argv) as
    [Hlen | e Hlen H1 | op1 e Hlen H1 H2 | op1 op2 v Hlen H1 H2 Hc
     | op1 op2 e Hlen H1 H2 Hc | op1 op2 type_name Hlen H1 H2 Hc];
    unfold trace_of; cbn [fst].
  - exists [], [Write cerr usage]. repeat split; auto.
  - exists [Stod (arg argv 2)], []. repeat split; auto.
  - exists [Stod (arg argv 2); Stod (arg argv 3)], []. repeat split; auto.
  - exists [Stod (arg argv 2); Stod (arg argv 3); Calculate op1 op2 (arg argv 1)],
      [Write cout "Result: "; Write cout (put_double v); Write cout newline].
    repeat split; auto. do 3 right. exists op1, op2. auto.
  - exists [Stod (arg argv 2); Stod (arg argv 3); Calculate op1 op2 (arg argv 1)],
      [Write cerr (what e); Write cerr newline].
    repeat split; auto. do 3 right. exists op1, op2. auto.
  - exists [Stod (arg argv 2); Stod (arg argv 3); Calculate op1 op2 (arg argv 1)], [].
    repeat split; auto. do 3 right. exists op1, op2. auto.
Qed.

(** X3. [main] never reads [argv[0]]: the execution is the same under any
    program name, and the usage line names [./calculator] whatever the
    program was called. *)
Theorem program_name_not_read calculate (name name' : string) (args : list string) :
  main calculate (name :: args) = main calculate (name' :: args)
  ∧ (length args ≠ 3%nat →
     written cerr (trace_of (main calculate (name :: args)))
     = ("Usage: ./calculator <operation> <operand1> <operand2>" +:+ newline)%string).
Proof.
  split; [reflexivity |].
  intros Hlen. rewrite main_wrong_count by (cbn [length]; lia). reflexivity.
Qed.

Lemma program_name_not_read_witness :
  length ["--add"; "1"]%string ≠ 3%nat
  ∧ written cerr (trace_of (main (λ _ _ _, Throws (Foreign "int"))
                              ["/usr/local/bin/calc"; "--add"; "1"]%string))
    = ("Usage: ./calculator <operation> <operand1> <operand2>" +:+ newline)%string.
Proof.
  split; [discriminate |].
  apply (proj2 (program_name_not_read (λ _ _ _, Throws (Foreign "int"))
                  "/usr/local/bin/calc" "" ["--add"; "1"]%string)).
  discriminate.
Defined.

(** What an observer of the process sees of an execution. *)
Lemma same_conversions_same_run calculate (argv argv' : list string) :
  length argv = 4%nat → length argv' = 4%nat →
  arg argv 1 = arg argv' 1 →
  stod (arg argv 2) = stod (arg argv' 2) →
  stod (arg argv 3) = stod (arg argv' 3) →
  written cout (trace_of (main calculate argv))
  = written cout (trace_of (main calculate argv'))
  ∧ written cerr (trace_of (main calculate argv))
    = written cerr (trace_of (main calculate argv'))
  ∧ outcome_of (main calculate argv) = outcome_of (main calculate argv').
Proof.
  intros Hlen Hlen' Hop E1 E2.
  destruct (stod (arg argv 2)) as [op1 | e1] eqn:H1; symmetry in E1.
  - destruct (stod (arg argv 3)) as [op2 | e2] eqn:H2; symmetry in E2.
    + destruct (calculate op1 op2 (arg argv 1)) as [v | [e | type_name]] eqn:Hc;
        pose proof Hc as Hc'; rewrite Hop in Hc'.
      * rewrite (main_result calculate argv Hlen op1 op2 H1 H2 v Hc),
          (main_result calculate argv' Hlen' op1 op2 E1 E2 v Hc').
        repeat split.
      * rewrite (main_caught calculate argv Hlen op1 op2 H1 H2 e Hc),
          (main_caught calculate argv' Hlen' op1 op2 E1 E2 e Hc').
        repeat split.
      * rewrite (main_not_caught calculate argv Hlen op1 op2 H1 H2 type_name Hc),
          (main_not_caught calculate argv' Hlen' op1 op2 E1 E2 type_name Hc').
        repeat split.
    + rewrite (main_second_operand_throws calculate argv Hlen op1 e2 H1 H2),
        (main_second_operand_throws calculate argv' Hlen' op1 e2 E1 E2).
      repeat split.
  - rewrite (main_first_operand_throws calculate argv Hlen e1 H1),
      (main_first_operand_throws calculate argv' Hlen' e1 E1).
    repeat split.
Qed.

(** X4. The operand strings matter only through their conversion: two
    invocations with the same operation whose operands [std::stod] converts
    to the same values (or rejects with the same exception) write the same
    text to both streams and end in the same way, and so do their
    processes. The values are compared as doubles are, bit for bit: [nan]
    and [-nan] are different operands. *)
Theorem operands_matter_through_conversion calculate (argv argv' : list string) :
  length argv = 4%nat → length argv' = 4%nat →
  arg argv 1 = arg argv' 1 →
  stod (arg argv 2) = stod (arg argv' 2) →
  stod (arg argv 3) = stod (arg argv' 3) →
  written cout (trace_of (main calculate argv))
  = written cout (trace_of (main calculate argv'))
  ∧ written cerr (trace_of (main calculate argv))
    = written cerr (trace_of (main calculate argv'))
  ∧ outcome_of (main calculate argv) = outcome_of (main calculate argv')
  ∧ execute (main calculate argv) = execute (main calculate argv').
Proof.
  intros Hlen Hlen' Hop E1 E2.
  destruct (same_conversions_same_run calculate argv argv' Hlen Hlen' Hop E1 E2)
    as (Hout & Herr & Hend).
  repeat split; try assumption. apply execute_determined; assumption.
Qed.

Lemma operands_matter_through_conversion_witness :
  stod "5" = stod " +5.0e0 apples" ∧ stod "3" = stod "0x3"
  ∧ written cout
      (trace_of (main (Calculator.calculate (λ _, "error"%string) std_exception)
                   ["./calculator"; "--add"; "5"; "3"]%string))
    = written cout
        (trace_of (main (Calculator.calculate (λ _, "error"%string) std_exception)
                     ["calc"; "--add"; " +5.0e0 apples"; "0x3"]%string)).
Proof.
  split; [reflexivity | split; [reflexivity |]].
  apply (operands_matter_through_conversion
           (Calculator.calculate (λ _, "error"%string) std_exception)
           ["./calculator"; "--add"; "5"; "3"]%string
           ["calc"; "--add"; " +5.0e0 apples"; "0x3"]%string);
    reflexivity.
Defined.

(** Operands that are not numbers: the sign and the payload of a NaN are
    part of the converted value. *)
Example nan_operands :
  stod "nan" = Returns (F754_nan false 0)
  ∧ stod "-nan" = Returns (F754_nan true 0)
  ∧ stod "NaN(0x7b)" = Returns (F754_nan false 123)
  ∧ stod "nan" ≠ stod "-nan"
  ∧ stod "nan" ≠ stod "nan(1)"
  ∧ stod "nan" = stod "nan()x"
  ∧ (F754_nan true 0 + of_Z 1)%double = F754_nan true 0
  ∧ (F754_infinity false - F754_infinity false)%double = F754_nan true 0
  ∧ (of_Z 0 / of_Z 0)%double = F754_nan true 0
  ∧ fabs (F754_nan true 5) = F754_nan false 5.
Proof. repeat split; try discriminate; vm_compute; reflexivity. Qed.

(** X5. The operands are converted before the operation is looked at: when
    [std::stod] rejects the first operand, the execution is the same
    whatever the operation token, the second operand and [calculate] are;
    when it rejects the second, the execution is the same whatever the
    operation token and [calculate] are. An unknown operation or a second
    bad operand is then not reported. *)
Theorem operand_errors_come_first calculate calculate'
    (argv argv' : list string) (e : thrown) :
  length argv = 4%nat → length argv' = 4%nat →
  (arg argv' 2 = arg argv 2 →
   stod (arg argv 2) = Throws e →
   main calculate' argv' = main calculate argv)
  ∧ (arg argv' 2 = arg argv 2 → arg argv' 3 = arg argv 3 →
     (∃ op1, stod (arg argv 2) = Returns op1) →
     stod (arg argv 3) = Throws e →
     main calculate' argv' = main calculate argv).
Proof.
  intros Hlen Hlen'. split.
  - intros E2 H1.
    rewrite (main_first_operand_throws calculate argv Hlen e H1).
    rewrite <- E2 in H1 |- *.
    apply (main_first_operand_throws calculate' argv' Hlen' e H1).
  - intros E2 E3 [op1 H1] H2.
    rewrite (main_second_operand_throws calculate argv Hlen op1 e H1 H2).
    rewrite <- E2 in H1 |- *. rewrite <- E3 in H2 |- *.
    apply (main_second_operand_throws calculate' argv' Hlen' op1 e H1 H2).
Qed.

Lemma operand_errors_come_first_witness :
  stod "five" = Throws (Std (Exception std_invalid_argument "stod"))
  ∧ main (Calculator.calculate (λ _, "error"%string) std_exception)
      ["./calculator"; "--power"; "five"; "three"]%string
    = main (λ a b _, Returns (a + b)%double)
        ["./calculator"; "--add"; "five"; "3"]%string.
Proof.
  split; [reflexivity |].
  apply (proj1 (operand_errors_come_first
                  (λ a b _, Returns (a + b)%double)
                  (Calculator.calculate (λ _, "error"%string) std_exception)
                  ["./calculator"; "--add"; "five"; "3"]%string
                  ["./calculator"; "--power"; "five"; "three"]%string
                  (Std (Exception std_invalid_argument "stod"))
                  eq_refl eq_refl));
    reflexivity.
Defined.

(** X8. Whenever both operands convert and [calculate] returns, [main]
    prints the result and reports success, whatever the value is: a result
    that is infinite or not a number is printed like any other, an
    infinity as [inf] or [-inf] and a NaN as [nan] or [-nan] by its sign
    bit, with exit status 0; it is not treated as an error. *)
Theorem returned_value_is_success calculate (argv : list string)
    (op1 op2 v : double) :
  length argv = 4%nat →
  stod (arg argv 2) = Returns op1 →
  stod (arg argv 3) = Returns op2 →
  calculate op1 op2 (arg argv 1) = Returns v →
  outcome_of (main calculate argv) = Exit EXIT_SUCCESS
  ∧ written cerr (trace_of (main calculate argv)) = ""%string
  ∧ written cout (trace_of (main calculate argv))
    = ("Result: " +:+ put_double v +:+ newline)%string
  ∧ (∀ negative, v = F754_infinity negative →
     written cout (trace_of (main calculate argv))
     = ("Result: " +:+ (if negative then "-inf" else "inf") +:+ newline)%string)
  ∧ (∀ negative payload, v = F754_nan negative payload →
     written cout (trace_of (main calculate argv))
     = ("Result: " +:+ (if negative then "-nan" else "nan") +:+ newline)%string).
Proof.
  intros Hlen H1 H2 Hc.
  rewrite (main_result calculate argv Hlen op1 op2 H1 H2 v Hc).
  split; [reflexivity | split; [reflexivity | split; [reflexivity | split]]].
  - intros negative ->. destruct negative; reflexivity.
  - intros negative payload ->. destruct negative; reflexivity.
Qed.

Lemma returned_value_is_success_witness :
  stod "1e200" = Returns (decimal 1 200)
  ∧ Calculator.calculate (λ _, "error"%string) std_exception
      (decimal 1 200) (decimal 1 200) "--multiply"
    = Returns (F754_infinity false)
  ∧ outcome_of (main (Calculator.calculate (λ _, "error"%string) std_exception)
                  ["./calculator"; "--multiply"; "1e200"; "1e200"]%string)
    = Exit 0
  ∧ written cout
      (trace_of (main (Calculator.calculate (λ _, "error"%string) std_exception)
                   ["./calculator"; "--multiply"; "1e200"; "1e200"]%string))
    = ("Result: inf" +:+ newline)%string.
Proof.
  split; [vm_compute; reflexivity | split; [vm_compute; reflexivity |]].
  pose proof (returned_value_is_success
                (Calculator.calculate (λ _, "error"%string) std_exception)
                ["./calculator"; "--multiply"; "1e200"; "1e200"]%string
                (decimal 1 200) (decimal 1 200) (F754_infinity false)
                eq_refl ltac:(vm_compute; reflexivity)
                ltac:(vm_compute; reflexivity) ltac:(vm_compute; reflexivity))
    as (Hexit & _ & _ & Hinf & _).
  split; [exact Hexit | exact (Hinf false eq_refl)].
Defined.

(** ** White space before an operand *)

Lemma skip_spaces_app (ws s : string) :
  all_spaces ws = true → skip_spaces (ws +:+ s) = skip_spaces s.
Proof.
  induction ws as [| c ws IH]; intros Hws; [reflexivity |].
  cbn [all_spaces] in Hws. apply andb_prop in Hws as [Hc Hws].
  change (String c ws +:+ s) with (String c (ws +:+ s)).
  cbn [skip_spaces]. rewrite Hc. apply IH, Hws.
Qed.

Lemma stod_skips_spaces (ws s : string) :
  all_spaces ws = true → stod (ws +:+ s) = stod s.
Proof.
  intros Hws. unfold stod, strtod. rewrite (skip_spaces_app ws s Hws). reflexivity.
Qed.

(** X9. White space before an operand is not seen: an invocation whose
    operands are preceded by spaces, tabs or newlines writes the same text
    and ends in the same way as the invocation without them. *)
Theorem leading_space_ignored calculate (argv argv' : list string)
    (ws1 ws2 : string) :
  length argv = 4%nat → length argv' = 4%nat →
  all_spaces ws1 = true → all_spaces ws2 = true →
  arg argv' 1 = arg argv 1 →
  arg argv' 2 = ws1 +:+ arg argv 2 →
  arg argv' 3 = ws2 +:+ arg argv 3 →
  written cout (trace_of (main calculate argv'))
  = written cout (trace_of (main calculate argv))
  ∧ written cerr (trace_of (main calculate argv'))
    = written cerr (trace_of (main calculate argv))
  ∧ outcome_of (main calculate argv') = outcome_of (main calculate argv).
Proof.
  intros Hlen Hlen' Hws1 Hws2 Hop E2 E3.
  apply same_conversions_same_run; try assumption.
  - rewrite E2. apply stod_skips_spaces, Hws1.
  - rewrite E3. apply stod_skips_spaces, Hws2.
Qed.

Lemma leading_space_ignored_witness :
  all_spaces "  " = true ∧ all_spaces "" = true
  ∧ written cout
      (trace_of (main (Calculator.calculate (λ _, "error"%string) std_exception)
                   ["./calculator"; "--subtract"; "  7"; "2"]%string))
    = written cout
        (trace_of (main (Calculator.calculate (λ _, "error"%string) std_exception)
                     ["./calculator"; "--subtract"; "7"; "2"]%string)).
Proof.
  split; [reflexivity | split; [reflexivity |]].
  apply (leading_space_ignored
           (Calculator.calculate (λ _, "error"%string) std_exception)
           ["./calculator"; "--subtract"; "7"; "2"]%string
           ["./calculator"; "--subtract"; "  7"; "2"]%string
           "  " "");
    reflexivity.
Defined.

(** * Properties of the CUnit runner of [test_calc.c] *)

Section RunnerProperties.

Variable registry : Type.
Variables CU_pSuite CU_pTest : Type.
Variable CUE_SUCCESS : Z.
Variable CU_initialize_registry : registry → Z * registry.
Variable CU_get_error : registry → Z.
Variable CU_add_suite :
  string → (unit → Z) → (unit → Z) → registry → option CU_pSuite * registry.
Variable CU_add_test :
  CU_pSuite → string → TestCalc.test_function → registry → option CU_pTest * registry.
Variable CU_basic_set_mode : TestCalc.CU_BasicRunMode → registry → registry.
Variable CU_basic_run_tests : registry → Z * registry.
Variable CU_cleanup_registry : registry → registry.

Let exit_status :=
  TestCalc.exit_status registry CU_pSuite CU_pTest CUE_SUCCESS CU_initialize_registry
    CU_get_error CU_add_suite CU_add_test CU_basic_set_mode CU_basic_run_tests
    CU_cleanup_registry.
Let final_registry :=
  TestCalc.final_registry registry CU_pSuite CU_pTest CUE_SUCCESS CU_initialize_registry
    CU_get_error CU_add_suite CU_add_test CU_basic_set_mode CU_basic_run_tests
    CU_cleanup_registry.
Let calls :=
  TestCalc.calls registry CU_pSuite CU_pTest CUE_SUCCESS CU_initialize_registry
    CU_get_error CU_add_suite CU_add_test CU_basic_set_mode CU_basic_run_tests
    CU_cleanup_registry.

(** Runs the runner along the results of the framework, case by case. *)
Ltac run_runner r :=
  unfold exit_status, final_registry, calls,
    TestCalc.exit_status, TestCalc.final_registry, TestCalc.calls, TestCalc.main,
    TestCalc.initialize, TestCalc.error, TestCalc.suite, TestCalc.test,
    TestCalc.set_mode, TestCalc.run_tests, TestCalc.cleanup, TestCalc.calling,
    mbind, mret, TestCalc.runner_bind, TestCalc.runner_ret;
  cbn [fst snd];
  destruct (CU_initialize_registry r) as [code r1] eqn:Hinit; cbn [fst snd];
  destruct (Z.eqb_spec CUE_SUCCESS code) as [Hcode | Hcode]; cbn [negb fst snd app];
  [ destruct (CU_add_suite _ _ _ r1) as [[pSuite |] r2] eqn:Hsuite; cbn [fst snd app];
    [ destruct (CU_add_test pSuite _ TestCalc.test_add r2) as [[t1 |] r3] eqn:Hadd;
      cbn [fst snd app TestCalc.is_null];
      [ destruct (CU_add_test pSuite _ TestCalc.test_divide_zero r3)
          as [[t2 |] r4] eqn:Hdiv;
        cbn [fst snd app TestCalc.is_null];
        [ destruct (CU_basic_run_tests _) as [ran r5] eqn:Hrun; cbn [fst snd app]
        | ]
      | ]
    | ]
  | ].

(** X6. The runner cleans the registry up on every path on which it was
    initialized, exactly once and as the last change to it, and the exit
    status is the error code the framework holds after that cleanup. When
    the initialization fails, nothing but the error code is asked for. *)
Theorem registry_cleaned_up (r : registry) :
  exit_status r = CU_get_error (final_registry r)
  ∧ (fst (CU_initialize_registry r) ≠ CUE_SUCCESS →
     calls r = [TestCalc.initialize_registry; TestCalc.get_error]
     ∧ final_registry r = snd (CU_initialize_registry r))
  ∧ (fst (CU_initialize_registry r) = CUE_SUCCESS →
     ∃ between r',
       calls r = TestCalc.initialize_registry :: between
                 ++ [TestCalc.cleanup_registry; TestCalc.get_error]
       ∧ (TestCalc.cleanup_registry ∉ between)
       ∧ (TestCalc.get_error ∉ between)
       ∧ (TestCalc.initialize_registry ∉ between)
       ∧ final_registry r = CU_cleanup_registry r').
Proof.
  run_runner r;
    (split; [reflexivity |]);
    (split; [intros Hne; try (exfalso; apply Hne; symmetry; exact Hcode);
             split; reflexivity |]);
    intros Heq; try (exfalso; apply Hcode; symmetry; exact Heq).
  - eexists [_; _; _; _; _], _. split; [reflexivity |].
    repeat split; try reflexivity; intros Hin;
      repeat (apply elem_of_cons in Hin as [Hin | Hin]; [discriminate Hin |]);
      inversion Hin.
  - eexists [_; _; _], _. split; [reflexivity |].
    repeat split; try reflexivity; intros Hin;
      repeat (apply elem_of_cons in Hin as [Hin | Hin]; [discriminate Hin |]);
      inversion Hin.
  - eexists [_; _], _. split; [reflexivity |].
    repeat split; try reflexivity; intros Hin;
      repeat (apply elem_of_cons in Hin as [Hin | Hin]; [discriminate Hin |]);
      inversion Hin.
  - eexists [_], _. split; [reflexivity |].
    repeat split; try reflexivity; intros Hin;
      repeat (apply elem_of_cons in Hin as [Hin | Hin]; [discriminate Hin |]);
      inversion Hin.
Qed.

(** X7. The tests are run exactly when the registry was initialized, the
    suite was added and both tests were added to it; the run is then the
    complete sequence of calls, with the suite and the tests registered
    under their names and in their order. When adding [test_add] fails,
    [test_divide_zero] is not offered to the framework at all. *)
Theorem tests_run_when_registered (r : registry) :
  (TestCalc.basic_run_tests ∈ calls r
   ↔ ∃ r1 pSuite r2 t1 r3 t2 r4,
       CU_initialize_registry r = (CUE_SUCCESS, r1)
       ∧ CU_add_suite "Calculator Test Suite" TestCalc.init_suite
           TestCalc.clean_suite r1 = (Some pSuite, r2)
       ∧ CU_add_test pSuite "Test Add Function" TestCalc.test_add r2 = (Some t1, r3)
       ∧ CU_add_test pSuite "Test Divide by Zero" TestCalc.test_divide_zero r3
         = (Some t2, r4))
  ∧ (TestCalc.basic_run_tests ∈ calls r → calls r = TestCalc.complete_run)
  ∧ (∀ r1 pSuite r2 r3,
       CU_initialize_registry r = (CUE_SUCCESS, r1) →
       CU_add_suite "Calculator Test Suite" TestCalc.init_suite
         TestCalc.clean_suite r1 = (Some pSuite, r2) →
       CU_add_test pSuite "Test Add Function" TestCalc.test_add r2 = (None, r3) →
       calls r = [TestCalc.initialize_registry;
                  TestCalc.add_suite "Calculator Test Suite";
                  TestCalc.add_test "Test Add Function" TestCalc.test_add;
                  TestCalc.cleanup_registry; TestCalc.get_error]
       ∧ final_registry r = CU_cleanup_registry r3).
Proof.
  assert (Hnot : ∀ l : list TestCalc.call,
             Forall (λ c, c ≠ TestCalc.basic_run_tests) l →
             TestCalc.basic_run_tests ∈ l → False).
  { intros l Hall Hin. rewrite Forall_forall in Hall. exact (Hall _ Hin eq_refl). }
  run_runner r.
  - (* everything was registered *)
    split; [split | split].
    + intros _. exists r1, pSuite, r2, t1, r3, t2, r4. subst code. auto.
    + intros _. repeat constructor.
    + intros _. reflexivity.
    + intros r1' s' r2' r3' E0 E1 E2. exfalso. congruence.
  - (* the second test was not added *)
    split; [split | split].
    + intros Hin. exfalso. revert Hin. apply Hnot. repeat constructor; discriminate.
    + intros (r1' & s' & r2' & t1' & r3' & t2' & r4' & E0 & E1 & E2 & E3).
      exfalso. congruence.
    + intros Hin. exfalso. revert Hin. apply Hnot. repeat constructor; discriminate.
    + intros r1' s' r2' r3' E0 E1 E2. exfalso. congruence.
  - (* the first test was not added *)
    split; [split | split].
    + intros Hin. exfalso. revert Hin. apply Hnot. repeat constructor; discriminate.
    + intros (r1' & s' & r2' & t1' & r3' & t2' & r4' & E0 & E1 & E2 & E3).
      exfalso. congruence.
    + intros Hin. exfalso. revert Hin. apply Hnot. repeat constructor; discriminate.
    + intros r1' s' r2' r3' E0 E1 E2. split; [reflexivity |]. congruence.
  - (* the suite was not added *)
    split; [split | split].
    + intros Hin. exfalso. revert Hin. apply Hnot. repeat constructor; discriminate.
    + intros (r1' & s' & r2' & t1' & r3' & t2' & r4' & E0 & E1 & E2 & E3).
      exfalso. congruence.
    + intros Hin. exfalso. revert Hin. apply Hnot. repeat constructor; discriminate.
    + intros r1' s' r2' r3' E0 E1 E2. exfalso. congruence.
  - (* the registry was not initialized *)
    split; [split | split].
    + intros Hin. exfalso. revert Hin. apply Hnot. repeat constructor; discriminate.
    + intros (r1' & s' & r2' & t1' & r3' & t2' & r4' & E0 & E1 & E2 & E3).
      exfalso. congruence.
    + intros Hin. exfalso. revert Hin. apply Hnot. repeat constructor; discriminate.
    + intros r1' s' r2' r3' E0 E1 E2. exfalso. congruence.
Qed.

End RunnerProperties.

(** A framework in which no test can be added and the cleanup resets the
    error code: the runner ends with status 0 after three registrations
    were tried. *)
Lemma registry_cleaned_up_witness :
  TestCalc.exit_status Z unit unit 0
    (λ _, (0, 0)) (λ r, r) (λ _ _ _ r, (Some tt, r)) (λ _ _ _ _, (None, 12))
    (λ _ r, r) (λ r, (0, r)) (λ _, 0) 7
  = 0.
Proof.
  exact (proj1 (registry_cleaned_up Z unit unit 0
                  (λ _, (0, 0)) (λ r, r) (λ _ _ _ r, (Some tt, r))
                  (λ _ _ _ _, (None, 12)) (λ _ r, r) (λ r, (0, r)) (λ _, 0) 7)).
Defined.

Lemma tests_run_when_registered_witness :
  TestCalc.calls Z unit unit 0
    (λ _, (0, 0)) (λ r, r) (λ _ _ _ r, (Some tt, r)) (λ _ _ _ _, (None, 12))
    (λ _ r, r) (λ r, (0, r)) (λ _, 0) 7
  = [TestCalc.initialize_registry; TestCalc.add_suite "Calculator Test Suite";
     TestCalc.add_test "Test Add Function" TestCalc.test_add;
     TestCalc.cleanup_registry; TestCalc.get_error].
Proof.
  exact (proj1 (proj2 (proj2 (tests_run_when_registered Z unit unit 0
                  (λ _, (0, 0)) (λ r, r) (λ _ _ _ r, (Some tt, r))
                  (λ _ _ _ _, (None, 12)) (λ _ r, r) (λ r, (0, r)) (λ _, 0) 7))
                  0 tt 0 12 eq_refl eq_refl eq_refl)).
Defined.
